(** * SaaS analytics backend: authentication, event tracking, summary

    A shallow embedding of [main.py] and [schemas.py].  Handlers are
    functions from the request and the store handle [db] to a result and
    the store handle afterwards.  The wall clock and the hasher's salt are
    explicit arguments.  The two third-party libraries the handlers call
    (python-jose and passlib) are not part of the repository: the token
    codec is a pair of section variables, the bcrypt context is modelled at
    the level of passlib's documented interface over an abstract digest. *)

From Stdlib Require Import ZArith Ascii String DecimalString DecimalZ.
From stdpp Require Import base tactics option list sorting strings gmap.

Local Open Scope string_scope.

(** ** Python values, exceptions and results *)

(** A JSON-like scalar: what a claims set or an event property holds. *)
Inductive value :=
| VNone
| VBool (b : bool)
| VInt (z : Z)
| VStr (s : string).

#[global] Instance value_eq_dec : EqDecision value.
Proof. solve_decision. Defined.

(** Python truthiness, as used by [not x] and [x or y]. *)
Definition truthy (v : value) : bool :=
  match v with
  | VNone => false
  | VBool b => b
  | VInt z => negb (Z.eqb z 0)
  | VStr s => negb (String.eqb s "")
  end.

(** [a or b] *)
Definition py_or (a b : value) : value := if truthy a then a else b.

(** [d.get(k)] on a dict with string keys. *)
Definition dict_get (d : gmap string value) (k : string) : value :=
  default VNone (d !! k).

Inductive exn :=
| HTTPException (status_code : Z) (detail : string)
| JWTError
| UnknownHashError
| MalformedHashError
| PasswordValueError
| PasswordSizeError
| IndexError
| TypeError
| ValidationError.

#[global] Instance exn_eq_dec : EqDecision exn.
Proof. solve_decision. Defined.

Inductive result (A : Type) :=
| Ok (a : A)
| Raise (e : exn).
Arguments Ok {A} a.
Arguments Raise {A} e.

(** Exceptions propagate: [x ← r; k] runs [k] only when [r] returned. *)
#[global] Instance result_bind : MBind result := λ A B k r,
  match r with
  | Ok a => k a
  | Raise e => Raise e
  end.

(** ** String helpers: [str.startswith] and [str.split(" ", 1)] *)

Definition startswith (s p : string) : bool := String.prefix p s.

Fixpoint split_at_space (s : string) : option (string * string) :=
  match s with
  | EmptyString => None
  | String c r =>
      if Ascii.eqb c " "%char then Some (EmptyString, r)
      else match split_at_space r with
           | Some (a, b) => Some (String c a, b)
           | None => None
           end
  end.

(** [s.split(" ", 1)]: at most one split, at the first space. *)
Definition split1 (s : string) : list string :=
  match split_at_space s with
  | Some (a, b) => [a; b]
  | None => [s]
  end.

(** [l[i]], raising [IndexError] out of range. *)
Definition index {A} (l : list A) (i : nat) : result A :=
  match l !! i with
  | Some x => Ok x
  | None => Raise IndexError
  end.

(** ** Schemas (schemas.py) and request/response models (main.py) *)

Module User.
Record t := mk {
  email : string;
  name : option string;
  password_hash : string }.
End User.

Module Event.
Record t := mk {
  user_id : string;
  type : string;
  properties : gmap string value }.
End Event.

Module AuthRequest.
Record t := mk { email : string; password : string }.
End AuthRequest.

Module AuthResponse.
Record t := mk { token : string; email : string; name : option string }.
End AuthResponse.

Module EventIn.
Record t := mk { type : string; properties : option (gmap string value) }.
End EventIn.

(** [Event(user_id=v, ...)]: the field is declared [str]; any other value is
    rejected when the model is built.  ([jwt.decode] only returns claims
    whose [sub] is a string, so the handlers never get there.) *)
Definition validate_str (v : value) : result string :=
  match v with
  | VStr s => Ok s
  | _ => Raise ValidationError
  end.

(** ** The document store *)

(** A document of the [user] collection as the handlers read it:
    [find_one] filters on [email]; [login] reads [name] and
    [password_hash] through [.get], so either may be absent. *)
Module UserDoc.
Record t := mk {
  email : string;
  name : option string;
  password_hash : option string }.
End UserDoc.

Record Database := mkDatabase {
  user : list UserDoc.t;
  event : list Event.t }.

Inductive model :=
| MUser (u : User.t)
| MEvent (e : Event.t).

(** [db["user"].find_one({"email": e})]: the first matching document. *)
Definition find_one_user (d : Database) (e : string) : option UserDoc.t :=
  List.find (λ u, String.eqb (UserDoc.email u) e) (user d).

(** Modelled from the spec: [database.create_document] ([database.py] is not
    among the sources).  "insert(collection_name, document): appends a
    document; no return value relied upon."  The collection is the one named
    after the model's class. *)
Definition create_document (collection_name : string) (data : model)
    (d : Database) : Database :=
  match data with
  | MUser u =>
      if String.eqb collection_name "user" then
        mkDatabase
          (user d ++ [UserDoc.mk (User.email u) (User.name u)
                        (Some (User.password_hash u))])
          (event d)
      else d
  | MEvent e =>
      if String.eqb collection_name "event" then
        mkDatabase (user d) (event d ++ [e])
      else d
  end.

(** ** The aggregation pipeline of [analytics_summary]

    [{"$group": {"_id": "$type", "count": {"$sum": 1}}}],
    [{"$sort": {"count": -1}}], [{"$limit": 10}].  A row is the pair
    [(_id, count)].  The store leaves the order of groups and of equal
    counts open; the model fixes one, and the properties below do not
    depend on which. *)

Definition row : Type := string * nat.

Fixpoint bump (t : string) (rows : list row) : list row :=
  match rows with
  | [] => [(t, 1)]
  | (k, c) :: rest =>
      if String.eqb k t then (k, S c) :: rest else (k, c) :: bump t rest
  end.

Fixpoint group_by_type (evs : list Event.t) : list row :=
  match evs with
  | [] => []
  | e :: rest => bump (Event.type e) (group_by_type rest)
  end.

Definition count_desc : relation row := λ a b, (b.2 ≤ a.2)%nat.

#[global] Instance count_desc_dec : RelDecision count_desc.
Proof. intros a b. unfold count_desc. apply _. Defined.

Definition sort_count_desc (rows : list row) : list row :=
  merge_sort count_desc rows.

Definition limit (n : nat) (rows : list row) : list row := take n rows.

Definition aggregate_pipeline (evs : list Event.t) : list row :=
  limit 10 (sort_count_desc (group_by_type evs)).

(** A Python [dict] as an association list in insertion order: assigning to
    an existing key keeps its position. *)
Fixpoint dict_set (k : string) (v : nat) (d : list (string * nat))
    : list (string * nat) :=
  match d with
  | [] => [(k, v)]
  | (k', v') :: rest =>
      if String.eqb k' k then (k', v) :: rest else (k', v') :: dict_set k v rest
  end.

(** [{r["_id"]: r["count"] for r in results}] *)
Definition dict_of_rows (results : list row) : list (string * nat) :=
  foldl (λ d r, dict_set r.1 r.2 d) [] results.

Module Summary.
Record t := mk { total : nat; byType : list (string * nat) }.
End Summary.

(** The guard that opens every handler. *)
Definition not_configured {A} : result A :=
  Raise (HTTPException 500 "Database not configured").

(** [GET /analytics/summary], main.py lines 119-132. *)
Definition analytics_summary (authorization : option string)
    (db : option Database) : result Summary.t * option Database :=
  match db with
  | None => (not_configured, db)
  | Some d =>
      let results := aggregate_pipeline (event d) in
      let summary := dict_of_rows results in
      let total := sum_list (summary.*2) in
      (Ok (Summary.mk total summary), db)
  end.

(** ** The credential hasher: [CryptContext(schemes=["bcrypt"])]

    The context object of passlib, at the level of its documented
    behaviour.  A hash string is first identified by its prefix and
    [UnknownHashError] is raised when no configured scheme claims it.  The
    password is then refused when it is longer than 4096 (as a string, and
    again as UTF-8 bytes).  The bcrypt handler parses
    [$2b$<cost>$<22-char salt><31-char digest>], salt and digest in the
    bcrypt base-64 alphabet, and clears the unused bits of their last
    characters; [MalformedHashError] stands for every [ValueError] it
    raises on the way.  A password containing a NUL byte is refused, and
    bcrypt reads only the first 72 bytes of the password.  Strings stand
    for their UTF-8 bytes.  The Blowfish digest itself is the parameter
    [bcrypt_raw]. *)

Definition has_nul (s : string) : bool :=
  existsb (Ascii.eqb Ascii.zero) (list_ascii_of_string s).

Fixpoint string_take (n : nat) (s : string) : string :=
  match n, s with
  | S n', String c r => String c (string_take n' r)
  | _, _ => EmptyString
  end.

Fixpoint string_drop (n : nat) (s : string) : string :=
  match n, s with
  | S n', String _ r => string_drop n' r
  | _, _ => s
  end.

Definition bcrypt_truncate_size : nat := 72.

(** [MAX_PASSWORD_SIZE] of passlib. *)
Definition max_password_size : nat := 4096.

(** [len(s)] of the Python string whose UTF-8 bytes are [s]: the bytes
    that are not continuation bytes. *)
Definition utf8_chars (s : string) : nat :=
  length (filter (λ c, negb ((128 <=? nat_of_ascii c)%nat
                             && (nat_of_ascii c <? 192)%nat))
            (list_ascii_of_string s)).

(** The bcrypt base-64 alphabet,
    [./ABCDEFGHIJKLMNOPQRSTUVWXYZabcdefghijklmnopqrstuvwxyz0123456789]:
    the value of a character and the character of a value. *)
Definition bcrypt64_index (c : ascii) : option nat :=
  let n := nat_of_ascii c in
  if (n =? 46)%nat then Some 0%nat
  else if (n =? 47)%nat then Some 1%nat
  else if (65 <=? n)%nat && (n <=? 90)%nat then Some (n - 63)%nat
  else if (97 <=? n)%nat && (n <=? 122)%nat then Some (n - 69)%nat
  else if (48 <=? n)%nat && (n <=? 57)%nat then Some (n + 6)%nat
  else None.

Definition bcrypt64_char (i : nat) : ascii :=
  ascii_of_nat
    (if (i =? 0)%nat then 46
     else if (i =? 1)%nat then 47
     else if (i <=? 27)%nat then i + 63
     else if (i <=? 53)%nat then i + 69
     else i - 6)%nat.

Definition in_bcrypt64 (s : string) : bool :=
  forallb (λ c, bool_decide (is_Some (bcrypt64_index c)))
    (list_ascii_of_string s).

(** [bcrypt64.check_repair_unused]: the low [bits] bits of the last
    character carry no data and are cleared. *)
Fixpoint repair_unused (bits : nat) (s : string) : string :=
  match s with
  | EmptyString => EmptyString
  | String c r =>
      match r with
      | EmptyString =>
          match bcrypt64_index c with
          | Some i =>
              String (bcrypt64_char (i / 2 ^ bits * 2 ^ bits)%nat) EmptyString
          | None => s
          end
      | _ => String c (repair_unused bits r)
      end
  end.

(** A salt as passlib draws it, and a digest as bcrypt returns it. *)
Definition bcrypt_salt_ok (salt : string) : bool :=
  (String.length salt =? 22)%nat && in_bcrypt64 salt
  && String.eqb (repair_unused 4 salt) salt.

Definition bcrypt_digest_ok (chk : string) : bool :=
  (String.length chk =? 31)%nat && in_bcrypt64 chk
  && String.eqb (repair_unused 2 chk) chk.

Definition bcrypt_idents : list string := ["$2$"; "$2a$"; "$2x$"; "$2y$"; "$2b$"].

Definition bcrypt_identify (hash : string) : bool :=
  existsb (λ i, String.prefix i hash) bcrypt_idents.

Definition digit_of (c : ascii) : option nat :=
  let n := nat_of_ascii c in
  if (48 <=? n)%nat && (n <=? 57)%nat then Some (n - 48)%nat else None.

Module BcryptHash.
Record t := mk {
  ident : string;
  rounds : nat;
  salt : string;
  checksum : string }.
End BcryptHash.

Definition bcrypt_from_string (hash : string) : result BcryptHash.t :=
  match List.find (λ i, String.prefix i hash) bcrypt_idents with
  | None => Raise MalformedHashError
  | Some ident =>
      if String.eqb ident "$2x$" then Raise MalformedHashError else
      match string_drop (String.length ident) hash with
      | String c1 (String c2 (String sep data)) =>
          match digit_of c1, digit_of c2 with
          | Some d1, Some d2 =>
              let rounds := (10 * d1 + d2)%nat in
              let salt := string_take 22 data in
              let chk := string_drop 22 data in
              if Ascii.eqb sep "$"%char
                 && (4 <=? rounds)%nat && (rounds <=? 31)%nat
                 && (String.length salt =? 22)%nat && in_bcrypt64 salt
                 && (String.length chk =? 31)%nat && in_bcrypt64 chk
              then Ok (BcryptHash.mk ident rounds
                         (repair_unused 4 salt) (repair_unused 2 chk))
              else Raise MalformedHashError
          | _, _ => Raise MalformedHashError
          end
      | _ => Raise MalformedHashError
      end
  end.

Section Program.

(** The bcrypt digest: identifier, cost, salt, key bytes to digest text. *)
Variable bcrypt_raw : string → nat → string → string → string.

(** [validate_secret]: the size limit on the password as a string. *)
Definition validate_secret (secret : string) : result unit :=
  if (max_password_size <? utf8_chars secret)%nat then Raise PasswordSizeError
  else Ok tt.

(** The digest of a password: the size limit on its bytes, the NUL check,
    then bcrypt on its first 72 bytes. *)
Definition bcrypt_checksum (ident : string) (rounds : nat) (salt secret : string)
    : result string :=
  if (max_password_size <? String.length secret)%nat then Raise PasswordSizeError
  else if has_nul secret then Raise PasswordValueError
  else Ok (bcrypt_raw ident rounds salt (string_take bcrypt_truncate_size secret)).

(** [pwd_context.hash(secret)]; [salt] is the salt that passlib draws. *)
Definition pwd_context_hash (salt secret : string) : result string :=
  _ ← validate_secret secret;
  chk ← bcrypt_checksum "$2b$" 12 salt secret;
  Ok ("$2b$12$" ++ salt ++ chk).

(** [pwd_context.verify(secret, hash)] *)
Definition pwd_context_verify (secret hash : string) : result bool :=
  if negb (bcrypt_identify hash) then Raise UnknownHashError else
  _ ← validate_secret secret;
  h ← bcrypt_from_string hash;
  chk ← bcrypt_checksum (BcryptHash.ident h) (BcryptHash.rounds h)
          (BcryptHash.salt h) secret;
  Ok (String.eqb chk (BcryptHash.checksum h)).

(** [hash_password], main.py lines 42-43. *)
Definition hash_password (salt password : string) : result string :=
  pwd_context_hash salt password.

(** [verify_password], main.py lines 46-47. *)
Definition verify_password (password password_hash : string) : result bool :=
  pwd_context_verify password password_hash.

(** ** Tokens

    [jwt.encode(claims, key, algorithm)] and
    [jwt.decode(token, key, algorithms)] of python-jose are parameters;
    [JWT_SECRET] comes from the environment. *)

Variable JWT_SECRET : string.
Definition JWT_ALG : string := "HS256".

Variable jwt_encode : gmap string value → string → string → string.
Variable jwt_decode : string → string → list string → result (gmap string value).

(** [create_token], main.py lines 50-52; [now] is
    [int(datetime.utcnow().timestamp())]. *)
Definition create_token (now : Z) (email : string) : string :=
  let payload : gmap string value :=
    <["sub" := VStr email]> (<["iat" := VInt now]> ∅) in
  jwt_encode payload JWT_SECRET JWT_ALG.

(** The two lines under [try] in [track_event] (and in
    [get_current_user]): decode, then read the [sub] claim. *)
Definition token_subject (token : string) : result value :=
  payload ← jwt_decode token JWT_SECRET [JWT_ALG];
  Ok (dict_get payload "sub").

(** ** Handlers *)

(** [POST /auth/register], main.py lines 78-88. *)
Definition register (payload : AuthRequest.t) (salt : string) (now : Z)
    (db : option Database) : result AuthResponse.t * option Database :=
  match db with
  | None => (not_configured, db)
  | Some d =>
      let email := AuthRequest.email payload in
      match find_one_user d email with
      | Some _ => (Raise (HTTPException 400 "Email already registered"), db)
      | None =>
          match hash_password salt (AuthRequest.password payload) with
          | Raise e => (Raise e, db)
          | Ok h =>
              let user_doc := User.mk email None h in
              let d' := create_document "user" (MUser user_doc) d in
              let token := create_token now email in
              (Ok (AuthResponse.mk token email None), Some d')
          end
      end
  end.

(** [POST /auth/login], main.py lines 91-99. *)
Definition login (payload : AuthRequest.t) (now : Z)
    (db : option Database) : result AuthResponse.t * option Database :=
  match db with
  | None => (not_configured, db)
  | Some d =>
      let email := AuthRequest.email payload in
      match find_one_user d email with
      | None => (Raise (HTTPException 401 "Invalid credentials"), db)
      | Some u =>
          match verify_password (AuthRequest.password payload)
                  (default "" (UserDoc.password_hash u)) with
          | Raise e => (Raise e, db)
          | Ok false => (Raise (HTTPException 401 "Invalid credentials"), db)
          | Ok true =>
              let token := create_token now email in
              (Ok (AuthResponse.mk token email (UserDoc.name u)), db)
          end
      end
  end.

(** Lines 106-113 of [track_event]: the value of [email] when the [Event]
    is built.  Only [JWTError] is caught. *)
Definition bearer_subject (authorization : option string) : result value :=
  match authorization with
  | Some a =>
      if negb (String.eqb a "") && startswith a "Bearer " then
        token ← index (split1 a) 1;
        match token_subject token with
        | Ok v => Ok v
        | Raise JWTError => Ok VNone
        | Raise e => Raise e
        end
      else Ok VNone
  | None => Ok VNone
  end.

(** [POST /events], main.py lines 102-116. *)
Definition track_event (event : EventIn.t) (authorization : option string)
    (db : option Database) : result (gmap string string) * option Database :=
  match db with
  | None => (not_configured, db)
  | Some d =>
      let data :=
        email ← bearer_subject authorization;
        user_id ← validate_str (py_or email (VStr "anonymous"));
        Ok (Event.mk user_id (EventIn.type event)
              (default ∅ (EventIn.properties event))) in
      match data with
      | Raise e => (Raise e, db)
      | Ok data =>
          (Ok {["status" := "ok"]},
           Some (create_document "event" (MEvent data) d))
      end
  end.

(** ** Requests in sequence *)

Inductive request :=
| Register (payload : AuthRequest.t) (salt : string) (now : Z)
| Login (payload : AuthRequest.t) (now : Z)
| TrackEvent (event : EventIn.t) (authorization : option string)
| AnalyticsSummary (authorization : option string).

Definition handle (db : option Database) (r : request) : option Database :=
  match r with
  | Register payload salt now => (register payload salt now db).2
  | Login payload now => (login payload now db).2
  | TrackEvent ev authorization => (track_event ev authorization db).2
  | AnalyticsSummary authorization => (analytics_summary authorization db).2
  end.

Definition run (db : option Database) (rs : list request) : option Database :=
  foldl handle db rs.

End Program.

(** ** Executable stand-ins for the library parameters

    Small instances of [bcrypt_raw], [jwt_encode] and [jwt_decode], so that
    the handlers can be run on concrete requests.  They are not the real
    algorithms: the digest and the tag are not cryptographic, and a token
    carries the [sub] and [iat] claims only. *)

Module Sample.

(** A rolling checksum over every byte of a string. *)
Fixpoint mix (acc : N) (s : string) : N :=
  match s with
  | EmptyString => acc
  | String c r => mix ((acc * 131 + N_of_ascii c) mod 2 ^ 124)%N r
  end.

Definition digits16 : list ascii := list_ascii_of_string "ABCDEFGHIJKLMNOP".
Definition digits4 : list ascii := list_ascii_of_string "CGKO".

(** [n] characters in [A..P], one per four bits, then one of [C G K O],
    whose two low bits are clear. *)
Fixpoint render (n : nat) (x : N) : string :=
  match n with
  | O => String (nth (N.to_nat (x mod 4)) digits4 "C"%char) EmptyString
  | S n' =>
      String (nth (N.to_nat (x mod 16)) digits16 "A"%char)
        (render n' (x / 16)%N)
  end.


(** A 31-character digest text that depends on all four arguments. *)
Definition bcrypt_raw (ident : string) (rounds : nat) (salt key : string)
    : string :=
  render 30 (mix (mix (mix (N.of_nat rounds) ident) salt) key).

Definition salt : string := "abcdefghijklmnopqrstuu".

Definition JWT_SECRET : string := "dev-secret-change-me".

(** Length-prefixed fields: [n] ones, a zero, then [n] characters. *)
Fixpoint ones (n : nat) : string :=
  match n with
  | O => EmptyString
  | S n' => String "1" (ones n')
  end.

(** A password of 4097 characters. *)
Definition oversized : string := ones 4097.

Definition frame (s : string) : string :=
  ones (String.length s) ++ String "0" s.

Fixpoint leading_ones (s : string) : nat * string :=
  match s with
  | String c r =>
      if Ascii.eqb c "1"%char
      then let '(n, r') := leading_ones r in (S n, r')
      else (O, s)
  | EmptyString => (O, s)
  end.

Definition unframe (s : string) : option (string * string) :=
  match leading_ones s with
  | (n, String c r) =>
      if Ascii.eqb c "0"%char && (n <=? String.length r)%nat
      then Some (string_take n r, string_drop n r)
      else None
  | _ => None
  end.

Definition tag (key msg : string) : string := key ++ "/" ++ msg.

Definition sub_field (claims : gmap string value) : string :=
  match claims !! "sub" with
  | Some (VStr s) => String "s" s
  | _ => EmptyString
  end.

Definition iat_field (claims : gmap string value) : string :=
  match claims !! "iat" with
  | Some (VInt z) => String "i" (NilEmpty.string_of_int (Z.to_int z))
  | _ => EmptyString
  end.

Definition jwt_encode (claims : gmap string value) (key algorithm : string)
    : string :=
  let body := frame (sub_field claims) ++ frame (iat_field claims) in
  frame algorithm ++ frame (tag key body) ++ body.

Definition parse_sub (f : string) (claims : gmap string value)
    : option (gmap string value) :=
  match f with
  | EmptyString => Some claims
  | String c s =>
      if Ascii.eqb c "s"%char then Some (<["sub" := VStr s]> claims) else None
  end.

Definition parse_iat (f : string) (claims : gmap string value)
    : option (gmap string value) :=
  match f with
  | EmptyString => Some claims
  | String c s =>
      if Ascii.eqb c "i"%char then
        d ← NilEmpty.int_of_string s;
        Some (<["iat" := VInt (Z.of_int d)]> claims)
      else None
  end.

Definition decode_claims (token key : string) (algorithms : list string)
    : option (gmap string value) :=
  '(alg, r1) ← unframe token;
  if negb (bool_decide (alg ∈ algorithms)) then None else
  '(sig, body) ← unframe r1;
  if negb (String.eqb sig (tag key body)) then None else
  '(subf, r2) ← unframe body;
  '(iatf, r3) ← unframe r2;
  if negb (String.eqb r3 EmptyString) then None else
  claims ← parse_iat iatf ∅;
  parse_sub subf claims.

Definition jwt_decode (token key : string) (algorithms : list string)
    : result (gmap string value) :=
  match decode_claims token key algorithms with
  | Some claims => Ok claims
  | None => Raise JWTError
  end.

(** A validly signed token whose subject is the empty string. *)
Definition empty_subject_token : string :=
  jwt_encode {["sub" := VStr ""]} JWT_SECRET "HS256".

(** A validly signed token without a subject. *)
Definition no_subject_token : string :=
  jwt_encode {["iat" := VInt 1700000000]} JWT_SECRET "HS256".


Definition db0 : Database := mkDatabase [] [].

(** The store after [a@x.com] registered with password [pw1]. *)
Definition db1 : Database :=
  default db0
    (register bcrypt_raw JWT_SECRET jwt_encode
       (AuthRequest.mk "a@x.com" "pw1") salt 1700000000 (Some db0)).2.

(** A store whose only [user] document has no [password_hash]. *)
Definition db_no_hash : Database :=
  mkDatabase [UserDoc.mk "c@x.com" None None] [].

Definition click : EventIn.t := EventIn.mk "click" None.

(** Two passwords that differ only in their 73rd byte. *)
Definition a72 : string :=
  "aaaaaaaaaaaaaaaaaaaaaaaaaaaaaaaaaaaaaaaaaaaaaaaaaaaaaaaaaaaaaaaaaaaaaaaa".
Definition long_b : string := a72 ++ "b".
Definition long_c : string := a72 ++ "c".

(** Eleven events, each of its own type. *)
Definition eleven_types : list Event.t :=
  (λ t, Event.mk "anonymous" t ∅) <$>
    ["a"; "b"; "c"; "d"; "e"; "f"; "g"; "h"; "i"; "j"; "k"].

(** Three [click] events and one [view] event, all without a token. *)
Definition scenario_events : list request :=
[TrackEvent (EventIn.mk "click" None) None;
 TrackEvent (EventIn.mk "view" None) None;
 TrackEvent (EventIn.mk "click" None) None;
 TrackEvent (EventIn.mk "click" None) None].

End Sample.

(** ** The token dependency and the diagnostic endpoint

    [get_current_user] (main.py lines 55-70) and [test_database] (lines
    135-166).  What the store object and the process environment answer is
    not in the sources and is taken as parameters. *)

(** [db["user"].find_one({"email": v})] for a claim value [v]: only a
    string can equal the [email] of a document. *)
Definition find_one_by_email (d : Database) (v : value) : option UserDoc.t :=
  match v with
  | VStr s => find_one_user d s
  | _ => None
  end.

Module TestResponse.
Record t := mk {
  backend : string;
  database : string;
  database_url : option string;
  database_name : option string;
  connection_status : string;
  collections : list string }.

(** [response[k] = v], one function per key. *)
Definition set_database (v : string) (r : t) : t :=
  mk (backend r) v (database_url r) (database_name r)
     (connection_status r) (collections r).
Definition set_database_url (v : string) (r : t) : t :=
  mk (backend r) (database r) (Some v) (database_name r)
     (connection_status r) (collections r).
Definition set_database_name (v : string) (r : t) : t :=
  mk (backend r) (database r) (database_url r) (Some v)
     (connection_status r) (collections r).
Definition set_connection_status (v : string) (r : t) : t :=
  mk (backend r) (database r) (database_url r) (database_name r)
     v (collections r).
Definition set_collections (v : list string) (r : t) : t :=
  mk (backend r) (database r) (database_url r) (database_name r)
     (connection_status r) v.
End TestResponse.

Section Infrastructure.

Variable JWT_SECRET : string.
Variable jwt_decode : string → string → list string → result (gmap string value).

(** [bool(db)] for a configured store, as the store object defines it. *)
Variable database_bool : Database → result bool.

(** [get_current_user], main.py lines 55-70.  The [except JWTError]
    clause covers the whole body of the [try]. *)
Definition get_current_user (token : option string) (db : option Database)
    : result UserDoc.t :=
  match token with
  | None => Raise (HTTPException 401 "Missing token")
  | Some t =>
      if String.eqb t "" then Raise (HTTPException 401 "Missing token") else
      let body :=
        email ← token_subject JWT_SECRET jwt_decode t;
        if negb (truthy email) then Raise (HTTPException 401 "Invalid token")
        else
          users ← match db with
                  | None => Ok None
                  | Some d =>
                      b ← database_bool d;
                      Ok (if b : bool then find_one_by_email d email else None)
                  end;
          match users with
          | None => Raise (HTTPException 401 "User not found")
          | Some u => Ok u
          end in
      match body with
      | Raise JWTError => Raise (HTTPException 401 "Invalid token")
      | r => r
      end
  end.

(** [os.getenv(name)] *)
Variable getenv : string → option string.

(** [getattr(db, 'name', default)] and [db.list_collection_names()] *)
Variable database_name_attr : Database → result string.
Variable list_collection_names : Database → result (list string).

(** [str(e)[:50]] *)
Variable error_text : exn → string.

(** Truthiness of [os.getenv(name)]: set and not empty. *)
Definition env_set (name : string) : bool :=
  match getenv name with
  | Some v => negb (String.eqb v "")
  | None => false
  end.

Definition initial_response : TestResponse.t :=
  TestResponse.mk "✅ Running" "❌ Not Available" None None "Not Connected" [].

(** The outer [try] of [test_database], lines 146-161. *)
Definition probe_database (db : option Database) : TestResponse.t :=
  match db with
  | Some d =>
      let r := TestResponse.set_database "✅ Available" initial_response in
      let r := TestResponse.set_database_url "✅ Configured" r in
      match database_name_attr d with
      | Raise e =>
          TestResponse.set_database ("❌ Error: " ++ error_text e) r
      | Ok n =>
          let r := TestResponse.set_database_name n r in
          let r := TestResponse.set_connection_status "Connected" r in
          match list_collection_names d with
          | Ok names =>
              let r := TestResponse.set_collections (take 10 names) r in
              TestResponse.set_database "✅ Connected & Working" r
          | Raise e =>
              TestResponse.set_database ("⚠️  Connected but Error: " ++ error_text e) r
          end
      end
  | None => TestResponse.set_database "⚠️  Available but not initialized" initial_response
  end.

(** [GET /test], main.py lines 135-166. *)
Definition test_database (db : option Database) : TestResponse.t :=
  let r := probe_database db in
  let r := TestResponse.set_database_url
             (if env_set "DATABASE_URL" then "✅ Set" else "❌ Not Set") r in
  TestResponse.set_database_name
    (if env_set "DATABASE_NAME" then "✅ Set" else "❌ Not Set") r.

End Infrastructure.

(** Stand-ins for the parameters of the section above. *)
Module SampleStore.

(** A store object that accepts truth testing. *)
Definition database_bool (d : Database) : result bool := Ok true.

Definition getenv (name : string) : option string :=
  if String.eqb name "DATABASE_URL" then Some "mongodb://localhost:27017"
  else None.

Definition database_name_attr (d : Database) : result string := Ok "appdb".

(** Twelve collection names. *)
Definition twelve : list string :=
  ["c01"; "c02"; "c03"; "c04"; "c05"; "c06";
   "c07"; "c08"; "c09"; "c10"; "c11"; "c12"].

Definition list_collection_names (d : Database) : result (list string) :=
  Ok twelve.

Definition error_text (e : exn) : string := "error".

(** A store with four events of two types. *)
Definition clicks : Database :=
  mkDatabase []
    [Event.mk "anonymous" "click" ∅; Event.mk "anonymous" "view" ∅;
     Event.mk "a@x.com" "click" ∅; Event.mk "anonymous" "click" ∅].

Definition alice : AuthRequest.t := AuthRequest.mk "a@x.com" "pw1".

(** The token issued to [a@x.com]. *)
Definition alice_token : string :=
  create_token Sample.JWT_SECRET Sample.jwt_encode 1700000000 "a@x.com".



End SampleStore.

(** ** Vocabulary of the statements *)

(** Number of events of a given type in the collection. *)
Definition count_type (t : string) (evs : list Event.t) : nat :=
  length (filter (λ e, Event.type e = t) evs).

(** The count a list of rows holds for a key, 0 when the key is absent. *)
Fixpoint rows_get (t : string) (rows : list row) : nat :=
  match rows with
  | [] => 0
  | (k, c) :: rest => if String.eqb k t then c else rows_get t rest
  end.

(** Number of [user] documents carrying a given email. *)
Definition email_count (e : string) (d : Database) : nat :=
  length (filter (λ u, UserDoc.email u = e) (user d)).

(** At most one [user] document per email value. *)
Definition unique_emails (d : Database) : Prop :=
  ∀ e, (email_count e d ≤ 1)%nat.

(** The event that [track_event] stores for a given [user_id]. *)
Definition stored_event (user_id : string) (event : EventIn.t) : Event.t :=
  Event.mk user_id (EventIn.type event) (default ∅ (EventIn.properties event)).

(** The store after one more event. *)
Definition with_event (e : Event.t) (d : Database) : Database :=
  mkDatabase (user d) (event d ++ [e]).

(** Every [user] document carries a hash that the bcrypt context
    identifies. *)
Definition hashes_identified (d : Database) : Prop :=
  Forall (λ u, ∃ h, UserDoc.password_hash u = Some h ∧ bcrypt_identify h = true)
    (user d).

(** Every stored event names a user. *)
Definition user_ids_nonempty (d : Database) : Prop :=
  Forall (λ e, Event.user_id e ≠ "") (event d).

(** Case analysis on every string comparison in the goal. *)
Ltac string_cases :=
  repeat match goal with
         | |- context [String.eqb ?a ?b] =>
             destruct (String.eqb_spec a b); subst; csimpl
         end;
  repeat case_bool_decide; subst; csimpl; try congruence.

(** * Properties *)

Local Open Scope list_scope.
Local Open Scope nat_scope.

(** ** Grouping, sorting and limiting *)

Section Grouping.
Implicit Types (rows : list row) (evs : list Event.t) (t k : string).

Lemma eqb_decide k t : String.eqb k t = bool_decide (k = t).
Proof.
  destruct (String.eqb_spec k t); symmetry;
    [by apply bool_decide_eq_true | by apply bool_decide_eq_false].
Qed.

Lemma bump_keys t rows :
  (bump t rows).*1 =
    if bool_decide (t ∈ rows.*1) then rows.*1 else (rows.*1 ++ [t])%list.
Proof.
  induction rows as [|[k c] rest IH]; csimpl; [done|].
  destruct (String.eqb_spec k t) as [->|Hk]; csimpl.
  - rewrite bool_decide_eq_true_2; [done | left].
  - rewrite IH. destruct (decide (t ∈ rest.*1)) as [Hin|Hin].
    + rewrite !bool_decide_eq_true_2; [done | by right | done].
    + rewrite !bool_decide_eq_false_2; [done | | done].
      intros [?|?]%elem_of_cons; congruence.
Qed.

Lemma bump_NoDup t rows : NoDup rows.*1 → NoDup (bump t rows).*1.
Proof.
  intros Hnd. rewrite bump_keys. case_bool_decide as Hin; [done|].
  apply NoDup_app. split_and!; [done | | apply NoDup_singleton].
  intros x Hx ->%list_elem_of_singleton. done.
Qed.

Lemma bump_get t k rows :
  rows_get k (bump t rows) =
    if bool_decide (k = t) then S (rows_get t rows) else rows_get k rows.
Proof.
  induction rows as [|[k' c] rest IH]; csimpl.
  - string_cases.
  - destruct (String.eqb_spec k' t) as [->|Hk't]; csimpl.
    + string_cases.
    + rewrite IH. string_cases.
Qed.

Lemma bump_sum t rows : sum_list (bump t rows).*2 = S (sum_list rows.*2).
Proof.
  induction rows as [|[k c] rest IH]; csimpl; [done|].
  destruct (String.eqb k t); csimpl; [done|]. rewrite IH. lia.
Qed.

Lemma bump_positive t rows :
  Forall (λ r, 0 < r.2) rows → Forall (λ r, 0 < r.2) (bump t rows).
Proof.
  induction 1 as [|[k c] rest Hc Hrest IH]; csimpl.
  - repeat constructor.
  - destruct (String.eqb k t); constructor; csimpl in *; auto with lia.
Qed.

Lemma group_NoDup evs : NoDup (group_by_type evs).*1.
Proof.
  induction evs; csimpl; [apply NoDup_nil_2 | by apply bump_NoDup].
Qed.

Lemma group_get t evs : rows_get t (group_by_type evs) = count_type t evs.
Proof.
  unfold count_type. induction evs as [|e rest IH]; csimpl; [done|].
  rewrite bump_get, filter_cons.
  case_bool_decide as Ht; case_decide; csimpl; congruence.
Qed.

Lemma group_sum evs : sum_list (group_by_type evs).*2 = length evs.
Proof.
  induction evs; csimpl; [done|]. rewrite bump_sum. by f_equal.
Qed.

Lemma group_positive evs : Forall (λ r, 0 < r.2) (group_by_type evs).
Proof.
  induction evs; csimpl; [constructor | by apply bump_positive].
Qed.

Lemma rows_get_elem t c rows :
  NoDup rows.*1 → (t, c) ∈ rows → rows_get t rows = c.
Proof.
  induction rows as [|[k c'] rest IH]; csimpl.
  - by intros _ ?%elem_of_nil.
  - intros [Hk Hnd]%NoDup_cons [Heq|Hin]%elem_of_cons.
    + injection Heq as -> ->. by rewrite String.eqb_refl.
    + rewrite eqb_decide. case_bool_decide as Hkt; [|by apply IH].
      subst k. destruct Hk. by apply (list_elem_of_fmap_2 fst _ (t, c)).
  Qed.

Lemma rows_get_absent t rows : t ∉ rows.*1 → rows_get t rows = 0.
Proof.
  induction rows as [|[k c] rest IH]; csimpl; [done|].
  intros Hnin. rewrite eqb_decide. case_bool_decide as Hk.
  - subst. destruct Hnin. left.
  - apply IH. intros ?. apply Hnin. by right.
Qed.

Lemma rows_get_present t rows :
  t ∈ rows.*1 → (t, rows_get t rows) ∈ rows.
Proof.
  induction rows as [|[k c] rest IH]; csimpl.
  - by intros ?%elem_of_nil.
  - intros Hin. rewrite eqb_decide. case_bool_decide as Hk.
    + subst. left.
    + right. apply IH. apply elem_of_cons in Hin as [?|?]; congruence.
Qed.

End Grouping.

Section Sorting.

#[local] Instance count_desc_trans : Transitive count_desc.
Proof. unfold count_desc. intros a b c ??. lia. Qed.

#[local] Instance count_desc_total : Total count_desc.
Proof. unfold count_desc. intros a b. lia. Qed.

Lemma sort_count_desc_perm rows : sort_count_desc rows ≡ₚ rows.
Proof. apply merge_sort_Permutation. Qed.

Lemma sort_count_desc_sorted rows :
  StronglySorted count_desc (sort_count_desc rows).
Proof. apply StronglySorted_merge_sort; apply _. Qed.

End Sorting.

Section Dict.
Implicit Types (d : list (string * nat)) (rows : list row).

Lemma dict_set_fresh k v d : k ∉ d.*1 → dict_set k v d = (d ++ [(k, v)])%list.
Proof.
  induction d as [|[k' v'] rest IH]; csimpl; [done|].
  intros Hnin. rewrite eqb_decide. case_bool_decide as Hk.
  - subst. destruct Hnin. left.
  - f_equal. apply IH. intros ?. apply Hnin. by right.
Qed.

Lemma dict_of_rows_from d rows :
  NoDup ((d ++ rows)%list).*1 →
  foldl (λ d r, dict_set r.1 r.2 d) d rows = (d ++ rows)%list.
Proof.
  revert d. induction rows as [|[k v] rest IH]; intros d Hnd; csimpl.
  - by rewrite app_nil_r.
  - rewrite dict_set_fresh.
    + rewrite IH; rewrite <-app_assoc; done.
    + rewrite fmap_app in Hnd. apply NoDup_app in Hnd as (_ & Hdis & _).
      intros Hin. apply (Hdis _ Hin). left.
Qed.

(** On rows with distinct keys the comprehension keeps rows and order. *)
Lemma dict_of_rows_NoDup rows : NoDup rows.*1 → dict_of_rows rows = rows.
Proof. intros Hnd. unfold dict_of_rows. by rewrite dict_of_rows_from. Qed.

End Dict.

(** The facts about the first [n] rows hold for any sort stage that returns
    a permutation of its input ordered by count, whatever it does with
    equal counts. *)
Section TopN.
Variable sort_stage : list row → list row.
Hypothesis sort_stage_perm : ∀ rows, sort_stage rows ≡ₚ rows.
Hypothesis sort_stage_sorted : ∀ rows, StronglySorted count_desc (sort_stage rows).

Variables (n : nat) (rows : list row).
Hypothesis rows_NoDup : NoDup rows.*1.

Local Abbreviation top := (take n (sort_stage rows)).

Lemma top_length : length top ≤ n.
Proof. rewrite length_take. lia. Qed.

Lemma top_sorted : StronglySorted count_desc top.
Proof.
  eapply StronglySorted_app_1_l.
  rewrite take_drop. apply sort_stage_sorted.
Qed.

Lemma top_NoDup : NoDup top.*1.
Proof.
  rewrite fmap_take.
  eapply sublist_NoDup; [|apply sublist_take].
  by rewrite sort_stage_perm.
Qed.

Lemma top_elem r : r ∈ top → r ∈ rows.
Proof.
  intros Hr%subseteq_take. by rewrite sort_stage_perm in Hr.
Qed.

Lemma top_get t c : (t, c) ∈ top → rows_get t rows = c.
Proof. intros Hin%top_elem. by apply rows_get_elem. Qed.

(** A key left out is outranked by every row kept, and only a full
    result leaves a key out. *)
Lemma top_outranks t :
  t ∈ rows.*1 → t ∉ top.*1 →
  length top = n ∧ ∀ r, r ∈ top → rows_get t rows ≤ r.2.
Proof.
  intros Hin Hout. apply rows_get_present in Hin.
  generalize dependent (rows_get t rows). intros c Hin.
  rewrite <-(sort_stage_perm rows), <-(take_drop n (sort_stage rows)) in Hin.
  apply elem_of_app in Hin as [Hin|Hin].
  { destruct Hout. by apply (list_elem_of_fmap_2 fst _ (t, c)). }
  split.
  - apply length_take_le.
    destruct (decide (n ≤ length (sort_stage rows))) as [|Hlt]; [done|].
    rewrite drop_ge in Hin by lia. by apply elem_of_nil in Hin.
  - intros r Hr.
    pose proof (sort_stage_sorted rows) as Hs.
    rewrite <-(take_drop n (sort_stage rows)) in Hs.
    apply (StronglySorted_app_1_elem_of _ _ _ _ _ Hs Hr Hin).
Qed.

Lemma top_sum : sum_list top.*2 ≤ sum_list rows.*2.
Proof.
  assert (sum_list rows.*2 = sum_list (sort_stage rows).*2) as ->.
  { by rewrite sort_stage_perm. }
  assert (sum_list (sort_stage rows).*2
          = sum_list top.*2 + sum_list (drop n (sort_stage rows)).*2) as ->.
  { by rewrite <-sum_list_with_app, <-fmap_app, take_drop. }
  lia.
Qed.

End TopN.

(** C1.  With the store configured, [GET /analytics/summary] succeeds for
    every state of the event collection and leaves the store as it was.
    [byType] has at most 10 entries with distinct types, ordered by count,
    highest first; each entry carries the number of events of its type;
    a type that has events but is left out is outranked by every entry
    returned, and is only left out when 10 entries are returned; [total] is
    the sum of the counts returned.  That sum never exceeds the number of
    events and is smaller for some collection (eleven events of eleven
    types give [total = 10]). *)
Theorem analytics_summary_top10 :
  (∀ (d : Database) (authorization : option string),
     ∃ resp,
       analytics_summary authorization (Some d) = (Ok resp, Some d) ∧
       length (Summary.byType resp) ≤ 10 ∧
       NoDup (Summary.byType resp).*1 ∧
       StronglySorted (λ a b : string * nat, b.2 ≤ a.2) (Summary.byType resp) ∧
       (∀ t c, (t, c) ∈ Summary.byType resp →
          c = count_type t (event d) ∧ 0 < c) ∧
       (∀ t, 0 < count_type t (event d) → t ∉ (Summary.byType resp).*1 →
          length (Summary.byType resp) = 10 ∧
          ∀ t' c', (t', c') ∈ Summary.byType resp →
            count_type t (event d) ≤ c') ∧
       Summary.total resp = sum_list (Summary.byType resp).*2 ∧
       Summary.total resp ≤ length (event d)) ∧
  (∃ (d : Database) (resp : Summary.t),
     analytics_summary None (Some d) = (Ok resp, Some d) ∧
     length (event d) = 11 ∧ Summary.total resp = 10).
Proof.
  split.
  - intros d authorization. unfold analytics_summary, aggregate_pipeline, limit.
    pose proof (group_NoDup (event d)) as Hnd.
    pose proof (top_NoDup _ sort_count_desc_perm 10 _ Hnd) as Hnd'.
    rewrite (dict_of_rows_NoDup _ Hnd').
    eexists. split; [reflexivity|]. cbn [Summary.byType Summary.total].
    split_and!.
    + apply top_length.
    + done.
    + apply (top_sorted _ sort_count_desc_sorted).
    + intros t c Hin. split.
      * rewrite <-group_get. symmetry.
        by apply (top_get _ sort_count_desc_perm 10 _ Hnd).
      * apply (top_elem _ sort_count_desc_perm) in Hin.
        pose proof (group_positive (event d)) as Hpos.
        rewrite Forall_forall in Hpos. apply (Hpos _ Hin).
    + intros t Hpos Hout. rewrite <-group_get in Hpos |- *.
      assert (t ∈ (group_by_type (event d)).*1) as Hin.
      { destruct (decide (t ∈ (group_by_type (event d)).*1)); [done|].
        rewrite rows_get_absent in Hpos by done. lia. }
      destruct (top_outranks _ sort_count_desc_perm sort_count_desc_sorted
                  10 _ t Hin Hout) as [Hlen Hle].
      split; [done|]. intros t' c' Hin'. apply (Hle _ Hin').
    + done.
    + rewrite <-group_sum. apply (top_sum _ sort_count_desc_perm).
  - exists (mkDatabase [] Sample.eleven_types). eexists.
    split; [vm_compute; reflexivity|]. split; reflexivity.
Qed.

(** ** Strings *)

Section Strings.
Implicit Types (a b s : string) (c : ascii).

Lemma string_app_cons c a b : (String c a ++ b)%string = String c (a ++ b)%string.
Proof. reflexivity. Qed.

Lemma string_app_nil_l a : ("" ++ a)%string = a.
Proof. reflexivity. Qed.

Lemma string_length_app a b :
  String.length (a ++ b)%string = String.length a + String.length b.
Proof.
  induction a as [|c a IH]; [done|].
  rewrite string_app_cons. simpl. by rewrite IH.
Qed.

Lemma string_take_app a b : string_take (String.length a) (a ++ b)%string = a.
Proof.
  induction a as [|c a IH]; [by destruct b|].
  rewrite string_app_cons. simpl. by rewrite IH.
Qed.

Lemma string_drop_app a b : string_drop (String.length a) (a ++ b)%string = b.
Proof.
  induction a as [|c a IH]; [done|]. by rewrite string_app_cons.
Qed.

Lemma string_app_nil_r a : (a ++ "")%string = a.
Proof.
  induction a as [|c a IH]; [done|]. by rewrite string_app_cons, IH.
Qed.

Lemma string_app_assoc a b s : ((a ++ b) ++ s)%string = (a ++ (b ++ s))%string.
Proof.
  induction a as [|c a IH]; [done|]. by rewrite !string_app_cons, IH.
Qed.

Lemma bearer_prefix tok : startswith ("Bearer " ++ tok)%string "Bearer " = true.
Proof. by destruct tok. Qed.

Lemma bearer_split tok : split1 ("Bearer " ++ tok)%string = ["Bearer"; tok].
Proof. reflexivity. Qed.

End Strings.

(** ** The credential hasher *)

Section Alphabet.
Implicit Types (s : string) (c : ascii).

Lemma string_length_list s :
  length (list_ascii_of_string s) = String.length s.
Proof. induction s as [|c s IH]; simpl; [done | by rewrite IH]. Qed.

Lemma utf8_chars_le s : utf8_chars s ≤ String.length s.
Proof.
  unfold utf8_chars. rewrite <-string_length_list. apply length_filter.
Qed.

Lemma validate_secret_ok s :
  String.length s ≤ max_password_size → validate_secret s = Ok tt.
Proof.
  intros Hlen. unfold validate_secret.
  pose proof (utf8_chars_le s).
  by rewrite (proj2 (Nat.ltb_ge _ _)) by lia.
Qed.

Lemma in_bcrypt64_app a b :
  in_bcrypt64 (a ++ b)%string = in_bcrypt64 a && in_bcrypt64 b.
Proof.
  unfold in_bcrypt64. induction a as [|c a IH]; [done|].
  rewrite string_app_cons. simpl. by rewrite IH, andb_assoc.
Qed.

End Alphabet.

Section Hasher.
Variable bcrypt_raw : string → nat → string → string → string.
Hypothesis bcrypt_raw_ok :
  ∀ ident rounds salt key,
    bcrypt_digest_ok (bcrypt_raw ident rounds salt key) = true.

Implicit Types (salt password hash : string).

Lemma bcrypt_from_string_2b_12 data :
  bcrypt_from_string ("$2b$12$" ++ data)%string
  = if (String.length (string_take 22 data) =? 22)
       && in_bcrypt64 (string_take 22 data)
       && (String.length (string_drop 22 data) =? 31)
       && in_bcrypt64 (string_drop 22 data)
    then Ok (BcryptHash.mk "$2b$" 12
               (repair_unused 4 (string_take 22 data))
               (repair_unused 2 (string_drop 22 data)))
    else Raise MalformedHashError.
Proof. reflexivity. Qed.

(** What [hash_password] writes parses back to its salt and digest. *)
Lemma bcrypt_from_string_render salt chk :
  bcrypt_salt_ok salt = true → bcrypt_digest_ok chk = true →
  bcrypt_from_string ("$2b$12$" ++ salt ++ chk)%string
  = Ok (BcryptHash.mk "$2b$" 12 salt chk).
Proof.
  unfold bcrypt_salt_ok, bcrypt_digest_ok.
  intros [[Hs Hsa]%andb_prop Hsr%String.eqb_eq]%andb_prop
         [[Hc Hca]%andb_prop Hcr%String.eqb_eq]%andb_prop.
  apply Nat.eqb_eq in Hs, Hc.
  rewrite bcrypt_from_string_2b_12.
  assert (string_take 22 (salt ++ chk)%string = salt) as ->
    by (rewrite <-Hs; apply string_take_app).
  assert (string_drop 22 (salt ++ chk)%string = chk) as ->
    by (rewrite <-Hs; apply string_drop_app).
  by rewrite Hs, Hc, Hsa, Hca, Hsr, Hcr.
Qed.

Lemma bcrypt_identify_render data :
  bcrypt_identify ("$2b$12$" ++ data)%string = true.
Proof. reflexivity. Qed.

Lemma bcrypt_checksum_accepted ident rounds salt password :
  has_nul password = false →
  String.length password ≤ max_password_size →
  bcrypt_checksum bcrypt_raw ident rounds salt password
  = Ok (bcrypt_raw ident rounds salt (string_take bcrypt_truncate_size password)).
Proof.
  intros Hnul Hlen. unfold bcrypt_checksum.
  by rewrite (proj2 (Nat.ltb_ge _ _)), Hnul by lia.
Qed.

Lemma hash_password_accepted salt password :
  has_nul password = false →
  String.length password ≤ max_password_size →
  hash_password bcrypt_raw salt password
  = Ok ("$2b$12$" ++ salt ++
          bcrypt_raw "$2b$" 12 salt (string_take bcrypt_truncate_size password))%string.
Proof.
  intros Hnul Hlen. unfold hash_password, pwd_context_hash.
  by rewrite validate_secret_ok, bcrypt_checksum_accepted.
Qed.

(** Verifying against a hash that [hash_password] produced compares the
    digests of the first 72 bytes under the hash's salt. *)
Lemma verify_password_hashed salt p q :
  bcrypt_salt_ok salt = true →
  has_nul q = false →
  String.length q ≤ max_password_size →
  verify_password bcrypt_raw q
    ("$2b$12$" ++ salt ++
       bcrypt_raw "$2b$" 12 salt (string_take bcrypt_truncate_size p))%string
  = Ok (String.eqb
          (bcrypt_raw "$2b$" 12 salt (string_take bcrypt_truncate_size q))
          (bcrypt_raw "$2b$" 12 salt (string_take bcrypt_truncate_size p))).
Proof.
  intros Hs Hq Hlen. unfold verify_password, pwd_context_verify.
  rewrite bcrypt_identify_render, validate_secret_ok by done.
  rewrite bcrypt_from_string_render by done.
  cbn [negb mbind result_bind BcryptHash.ident BcryptHash.rounds
       BcryptHash.salt BcryptHash.checksum].
  by rewrite bcrypt_checksum_accepted.
Qed.

End Hasher.

Lemma sample_render_length n x : String.length (Sample.render n x) = S n.
Proof. revert x. induction n as [|n IH]; intros x; simpl; [done | by rewrite IH]. Qed.

Lemma sample_digits16 i :
  is_Some (bcrypt64_index (nth i Sample.digits16 "A"%char)).
Proof. do 17 (destruct i as [|i]; [by eexists|]). by eexists. Qed.

Lemma sample_digits4 i :
  let c := nth i Sample.digits4 "C"%char in
  is_Some (bcrypt64_index c) ∧
  repair_unused 2 (String c EmptyString) = String c EmptyString.
Proof. do 5 (destruct i as [|i]; [by split; [eexists|]|]). by split; [eexists|]. Qed.

Lemma sample_render_alphabet n x : in_bcrypt64 (Sample.render n x) = true.
Proof.
  revert x. unfold in_bcrypt64.
  induction n as [|n IH]; intros x; cbn [Sample.render list_ascii_of_string forallb].
  - rewrite bool_decide_eq_true_2; [done|]. apply sample_digits4.
  - rewrite bool_decide_eq_true_2; [apply IH|]. apply sample_digits16.
Qed.

Lemma sample_render_clean n x :
  repair_unused 2 (Sample.render n x) = Sample.render n x.
Proof.
  revert x. induction n as [|n IH]; intros x.
  - apply sample_digits4.
  - cbn [Sample.render repair_unused].
    destruct (Sample.render n (x / 16)) as [|c r] eqn:Hr.
    + by destruct n.
    + by rewrite <-Hr, IH.
Qed.

Lemma sample_bcrypt_raw_ok ident rounds salt key :
  bcrypt_digest_ok (Sample.bcrypt_raw ident rounds salt key) = true.
Proof.
  unfold bcrypt_digest_ok, Sample.bcrypt_raw.
  by rewrite sample_render_length, sample_render_alphabet, sample_render_clean,
    String.eqb_refl.
Qed.

(** C7.  [verify_password] raises on malformed hash strings instead of
    returning [False]: [UnknownHashError] on the empty string, which is what
    line 96 of [login] hands it for a [user] document without
    [password_hash], and on any string without a bcrypt prefix;
    a malformed-hash error on a string with the prefix that does not parse.
    [login] on such a document raises with it. *)
Theorem verify_password_empty_hash_raises :
  verify_password Sample.bcrypt_raw "pw" "" = Raise UnknownHashError ∧
  verify_password Sample.bcrypt_raw "pw" "" ≠ Ok false ∧
  verify_password Sample.bcrypt_raw "pw" "not-a-hash" = Raise UnknownHashError ∧
  verify_password Sample.bcrypt_raw "pw" "$2b$12$short" = Raise MalformedHashError ∧
  login Sample.bcrypt_raw Sample.JWT_SECRET Sample.jwt_encode
    (AuthRequest.mk "c@x.com" "pw") 1700000006 (Some Sample.db_no_hash)
  = (Raise UnknownHashError, Some Sample.db_no_hash).
Proof. split_and!; [reflexivity | discriminate | reflexivity..]. Qed.

(** C8, as stated, fails twice: two passwords that differ only in their
    73rd byte verify against each other's hash, and a password containing a
    NUL byte cannot be hashed at all. *)
Lemma hash_verify_not_injective :
  Sample.long_c ≠ Sample.long_b ∧
  (h ← hash_password Sample.bcrypt_raw Sample.salt Sample.long_b;
   verify_password Sample.bcrypt_raw Sample.long_c h) = Ok true ∧
  hash_password Sample.bcrypt_raw Sample.salt (String Ascii.zero "")
  = Raise PasswordValueError.
Proof. split_and!; [discriminate | vm_compute; reflexivity | reflexivity]. Qed.

(** C8, amended.  For a password [p] without NUL bytes and of at most
    4096 bytes, [hash] succeeds and [verify(p, hash(p))] is true.  For
    another such password [q], [verify(q, hash(p))] compares the bcrypt
    digests of the first 72 bytes of [q] and of [p] under the salt of the
    hash: it is false when these digests differ, and true when they agree,
    as they do whenever [q] and [p] share their first 72 bytes.  The salt
    is one that passlib draws and the digest one that bcrypt returns: of
    the right length, in the bcrypt alphabet, with clear padding bits. *)
Theorem hash_then_verify
    (bcrypt_raw : string → nat → string → string → string)
    (salt p q : string) :
  (∀ ident rounds salt key,
     bcrypt_digest_ok (bcrypt_raw ident rounds salt key) = true) →
  bcrypt_salt_ok salt = true →
  has_nul p = false → String.length p ≤ 4096 →
  has_nul q = false → String.length q ≤ 4096 →
  ∃ h,
    hash_password bcrypt_raw salt p = Ok h ∧
    verify_password bcrypt_raw p h = Ok true ∧
    verify_password bcrypt_raw q h
    = Ok (String.eqb
            (bcrypt_raw "$2b$" 12 salt (string_take 72 q))
            (bcrypt_raw "$2b$" 12 salt (string_take 72 p))) ∧
    (string_take 72 q = string_take 72 p →
       verify_password bcrypt_raw q h = Ok true).
Proof.
  intros Hraw Hsalt Hp Hplen Hq Hqlen.
  eexists. split; [by apply hash_password_accepted|].
  rewrite !(verify_password_hashed bcrypt_raw Hraw) by done.
  change bcrypt_truncate_size with 72.
  split_and!; [by rewrite String.eqb_refl | done |].
  intros ->. by rewrite String.eqb_refl.
Qed.

Lemma hash_then_verify_witness :
  ∃ h,
    hash_password Sample.bcrypt_raw Sample.salt "pw1" = Ok h ∧
    verify_password Sample.bcrypt_raw "pw1" h = Ok true ∧
    verify_password Sample.bcrypt_raw "wrong" h = Ok false.
Proof.
  destruct (hash_then_verify Sample.bcrypt_raw Sample.salt "pw1" "wrong"
              sample_bcrypt_raw_ok eq_refl eq_refl) as (h & Hh & Hp & Hq & _);
    [simpl; lia | reflexivity | simpl; lia |].
  exists h. split_and!; [exact Hh | exact Hp | rewrite Hq; reflexivity].
Defined.

(** ** The sample token codec *)

Section SampleCodec.
Import Sample.

Lemma leading_ones_ones n s :
  leading_ones (ones n ++ String "0" s)%string = (n, String "0" s).
Proof.
  induction n as [|n IH]; [done|].
  simpl ones. rewrite string_app_cons.
  cbn [leading_ones]. rewrite IH. reflexivity.
Qed.

Lemma unframe_frame s r : unframe (frame s ++ r)%string = Some (s, r).
Proof.
  unfold unframe, frame.
  rewrite string_app_assoc, string_app_cons, leading_ones_ones.
  cbn [Ascii.eqb Bool.eqb andb].
  rewrite string_length_app, string_take_app, string_drop_app.
  by rewrite (proj2 (Nat.leb_le _ _)) by lia.
Qed.

Lemma sample_decode_encode sub iat key :
  jwt_decode
    (jwt_encode (<["sub" := VStr sub]> (<["iat" := VInt iat]> ∅)) key "HS256")
    key ["HS256"]
  = Ok (<["sub" := VStr sub]> (<["iat" := VInt iat]> ∅)).
Proof.
  unfold jwt_decode, decode_claims, jwt_encode.
  rewrite unframe_frame. cbn [mbind option_bind].
  rewrite bool_decide_eq_true_2 by (apply list_elem_of_singleton; reflexivity).
  cbn [negb]. rewrite unframe_frame. cbn [mbind option_bind].
  rewrite String.eqb_refl. cbn [negb].
  rewrite unframe_frame. cbn [mbind option_bind].
  rewrite <-(string_app_nil_r (frame (iat_field _))), unframe_frame.
  cbn [mbind option_bind String.eqb negb].
  unfold iat_field, sub_field.
  rewrite (lookup_insert_ne _ "sub" "iat") by discriminate. rewrite !lookup_insert_eq.
  cbn [parse_iat parse_sub Ascii.eqb Bool.eqb].
  rewrite NilEmpty.isi. cbn [mbind option_bind].
  by rewrite DecimalZ.of_to.
Qed.

End SampleCodec.

(** ** The user collection *)

Section Users.
Implicit Types (d : Database) (e : string) (u : UserDoc.t).

Lemma find_one_user_None d e : find_one_user d e = None → email_count e d = 0.
Proof.
  unfold find_one_user, email_count. induction (user d) as [|u us IH]; [done|].
  cbn [List.find]. rewrite filter_cons.
  destruct (String.eqb_spec (UserDoc.email u) e) as [Heq|Hne]; [done|].
  intros Hnone. rewrite decide_False by done. by apply IH.
Qed.

Lemma find_one_user_Some d e :
  (∃ u, u ∈ user d ∧ UserDoc.email u = e) → is_Some (find_one_user d e).
Proof.
  unfold find_one_user. intros (u & Hin & Heq).
  induction Hin as [u us|u u' us Hin IH]; cbn [List.find].
  - rewrite Heq, String.eqb_refl. by eexists.
  - destruct (String.eqb _ _); [by eexists | by apply IH].
Qed.

Lemma email_count_insert d e (u : User.t) :
  email_count e (create_document "user" (MUser u) d)
  = email_count e d + (if decide (User.email u = e) then 1 else 0).
Proof.
  unfold email_count. cbn [create_document String.eqb Ascii.eqb Bool.eqb user].
  rewrite filter_app, length_app, filter_cons, filter_nil.
  cbn [UserDoc.email]. by case_decide.
Qed.

Lemma find_one_user_absent d e :
  (∀ u, u ∈ user d → UserDoc.email u ≠ e) → find_one_user d e = None.
Proof.
  unfold find_one_user. induction (user d) as [|u us IH]; [done|].
  intros Hall. cbn [List.find].
  destruct (String.eqb_spec (UserDoc.email u) e) as [Heq|Hne].
  - destruct (Hall u); [left | done].
  - apply IH. intros u' Hu'. apply Hall. by right.
Qed.

Lemma unique_emails_same_users d d' :
  user d' = user d → unique_emails d → unique_emails d'.
Proof. unfold unique_emails, email_count. by intros ->. Qed.

End Users.

(** ** Handlers *)

Section Handlers.
Variable bcrypt_raw : string → nat → string → string → string.
Variable JWT_SECRET : string.
Variable jwt_encode : gmap string value → string → string → string.
Variable jwt_decode : string → string → list string → result (gmap string value).

Local Abbreviation track_event' := (track_event JWT_SECRET jwt_decode).
Local Abbreviation token_subject' := (token_subject JWT_SECRET jwt_decode).
Local Abbreviation bearer_subject' := (bearer_subject JWT_SECRET jwt_decode).
Local Abbreviation handle' :=
  (handle bcrypt_raw JWT_SECRET jwt_encode jwt_decode).
Local Abbreviation run' := (run bcrypt_raw JWT_SECRET jwt_encode jwt_decode).

Implicit Types (d : Database) (ev : EventIn.t) (tok : string).

Lemma bearer_subject_bearer tok :
  bearer_subject' (Some ("Bearer " ++ tok)%string)
  = match token_subject' tok with
    | Ok v => Ok v
    | Raise JWTError => Ok VNone
    | Raise e => Raise e
    end.
Proof.
  unfold bearer_subject.
  rewrite bearer_prefix, bearer_split. reflexivity.
Qed.

(** What [track_event] does once the value of [email] is known. *)
Lemma track_event_subject ev authorization d v :
  bearer_subject' authorization = Ok v →
  track_event' ev authorization (Some d)
  = match validate_str (py_or v (VStr "anonymous")) with
    | Ok user_id =>
        (Ok {["status" := "ok"]}, Some (with_event (stored_event user_id ev) d))
    | Raise e => (Raise e, Some d)
    end.
Proof.
  intros Hv. unfold track_event. rewrite Hv.
  cbn [mbind result_bind]. by destruct (validate_str _).
Qed.

Lemma handle_Some d r :
  unique_emails d → ∃ d', handle' (Some d) r = Some d' ∧ unique_emails d'.
Proof.
  intros Hu. destruct r as [payload salt now|payload now|ev authorization|authorization];
    cbn [handle].
  - unfold register.
    destruct (find_one_user d _) eqn:Hfind; [by eexists|].
    destruct (hash_password _ _ _); [|by eexists].
    eexists. split; [reflexivity|]. intros e.
    rewrite email_count_insert. cbn [User.email].
    case_decide as He; [|specialize (Hu e); lia].
    subst e. apply find_one_user_None in Hfind. lia.
  - unfold login. exists d. split; [|done].
    destruct (find_one_user d _); [|done].
    by destruct (verify_password _ _ _) as [[]|].
  - unfold track_event.
    destruct (_ ≫= _) as [data|]; [|by eexists].
    eexists. split; [reflexivity|].
    by apply (unique_emails_same_users d).
  - by exists d.
Qed.

Lemma run_Some d rs :
  unique_emails d → ∃ d', run' (Some d) rs = Some d' ∧ unique_emails d'.
Proof.
  revert d. induction rs as [|r rs IH]; intros d Hu; [by exists d|].
  destruct (handle_Some d r Hu) as (d1 & Hd1 & Hu1).
  unfold run. cbn [foldl]. rewrite Hd1. by apply IH.
Qed.

(** C2.  Whenever the token library decodes what it encoded (for the
    claims set that [create_token] builds, under one key and [HS256]),
    decoding a token issued for a subject and reading its [sub] claim, as
    [track_event] does, succeeds and returns that subject, for every
    subject string and every issue time. *)
Theorem token_roundtrip (now : Z) (email : string) :
  (∀ (sub : string) (iat : Z) (key : string),
     jwt_decode
       (jwt_encode (<["sub" := VStr sub]> (<["iat" := VInt iat]> ∅)) key JWT_ALG)
       key [JWT_ALG]
     = Ok (<["sub" := VStr sub]> (<["iat" := VInt iat]> ∅))) →
  token_subject JWT_SECRET jwt_decode (create_token JWT_SECRET jwt_encode now email)
  = Ok (VStr email).
Proof.
  intros Hrt. unfold token_subject, create_token. rewrite Hrt.
  cbn [mbind result_bind]. unfold dict_get. by rewrite lookup_insert_eq.
Qed.

(** C3.  When a [user] document with the request's email is in the
    store, [register] fails with status 400 and leaves the store as it
    was.  Hence, over any sequence of requests handled one after the
    other, a store with at most one [user] document per email keeps that
    property; the store without users has it, so it holds from the start. *)
Theorem register_duplicate_email :
  (∀ d payload salt now,
     (∃ u, u ∈ user d ∧ UserDoc.email u = AuthRequest.email payload) →
     register bcrypt_raw JWT_SECRET jwt_encode payload salt now (Some d)
     = (Raise (HTTPException 400 "Email already registered"), Some d)) ∧
  (∀ d rs,
     unique_emails d →
     ∃ d', run bcrypt_raw JWT_SECRET jwt_encode jwt_decode (Some d) rs = Some d'
           ∧ unique_emails d') ∧
  (∀ evs rs,
     ∃ d', run bcrypt_raw JWT_SECRET jwt_encode jwt_decode
             (Some (mkDatabase [] evs)) rs = Some d'
           ∧ ∀ e, length (filter (λ u, UserDoc.email u = e) (user d')) ≤ 1).
Proof.
  split_and!.
  - intros d payload salt now [u Hu]%find_one_user_Some.
    unfold register. by rewrite Hu.
  - intros d rs. apply run_Some.
  - intros evs rs. apply run_Some. intros e. unfold email_count. simpl. lia.
Qed.

(** The two 401 branches of [login]: when no [user] document carries the
    email, or [verify_password] returns [False] on the one found, [login]
    fails with status 401 and the detail "Invalid credentials", and the
    store is left as it was.  Nothing is said here of a call on which
    [verify_password] raises. *)
Lemma login_invalid_credentials payload now d :
  (∀ u, u ∈ user d → UserDoc.email u ≠ AuthRequest.email payload) ∨
  (∃ u, find_one_user d (AuthRequest.email payload) = Some u ∧
        verify_password bcrypt_raw (AuthRequest.password payload)
          (default "" (UserDoc.password_hash u)) = Ok false) →
  login bcrypt_raw JWT_SECRET jwt_encode payload now (Some d)
  = (Raise (HTTPException 401 "Invalid credentials"), Some d).
Proof.
  unfold login. intros [Habsent|(u & Hu & Hv)].
  - by rewrite find_one_user_absent.
  - by rewrite Hu, Hv.
Qed.



(** C6, amended.  With the store configured: when the bearer token
    decodes and its subject is the string [s], the stored event's
    [user_id] is [s] if [s] is not empty and "anonymous" if it is; with
    no authorization value the stored [user_id] is "anonymous"; and
    whatever the request, the [user_id] of a stored event is never
    empty. *)
Theorem track_event_user_id ev d :
  (∀ tok s,
     token_subject JWT_SECRET jwt_decode tok = Ok (VStr s) →
     track_event JWT_SECRET jwt_decode ev (Some ("Bearer " ++ tok)%string) (Some d)
     = (Ok {["status" := "ok"]},
        Some (with_event
                (stored_event (if String.eqb s "" then "anonymous" else s) ev)
                d))) ∧
  track_event JWT_SECRET jwt_decode ev None (Some d)
  = (Ok {["status" := "ok"]},
     Some (with_event (stored_event "anonymous" ev) d)) ∧
  (∀ authorization resp d',
     track_event JWT_SECRET jwt_decode ev authorization (Some d)
     = (Ok resp, Some d') →
     ∃ user_id, user_id ≠ "" ∧ d' = with_event (stored_event user_id ev) d).
Proof.
  split_and!.
  - intros tok s Hs.
    rewrite (track_event_subject _ _ _ (VStr s)).
    + unfold py_or, truthy. by destruct (String.eqb s "").
    + rewrite bearer_subject_bearer. by rewrite Hs.
  - by rewrite (track_event_subject _ _ _ VNone).
  - intros authorization resp d'. unfold track_event.
    destruct (bearer_subject _ _ _) as [v|]; cbn [mbind result_bind]; [|done].
    unfold py_or. destruct (truthy v) eqn:Hv.
    + destruct v as [| |z|s]; cbn [validate_str]; try done.
      intros [= _ <-]. exists s. split; [|done].
      intros ->. discriminate Hv.
    + intros [= _ <-]. by exists "anonymous".
Qed.

(** C9.  With no store configured, each of the four handlers fails with
    status 500 and the detail "Database not configured", whatever the
    request, and there is still no store afterwards. *)
Theorem store_not_configured payload salt now ev authorization :
  register bcrypt_raw JWT_SECRET jwt_encode payload salt now None
  = (Raise (HTTPException 500 "Database not configured"), None) ∧
  login bcrypt_raw JWT_SECRET jwt_encode payload now None
  = (Raise (HTTPException 500 "Database not configured"), None) ∧
  track_event JWT_SECRET jwt_decode ev authorization None
  = (Raise (HTTPException 500 "Database not configured"), None) ∧
  analytics_summary authorization None
  = (Raise (HTTPException 500 "Database not configured"), None).
Proof. done. Qed.

(** C10.  With the store configured, when the bearer token decodes but
    its claims have no [sub], or [sub] is the empty string,
    [track_event] answers [{"status": "ok"}] and the stored event's
    [user_id] is "anonymous". *)
Theorem track_event_empty_subject ev tok d payload :
  jwt_decode tok JWT_SECRET [JWT_ALG] = Ok payload →
  payload !! "sub" = None ∨ payload !! "sub" = Some (VStr "") →
  track_event JWT_SECRET jwt_decode ev (Some ("Bearer " ++ tok)%string) (Some d)
  = (Ok {["status" := "ok"]},
     Some (with_event (stored_event "anonymous" ev) d)).
Proof.
  intros Hdec Hsub.
  rewrite (track_event_subject _ _ _ (dict_get payload "sub")).
  - unfold dict_get. by destruct Hsub as [-> | ->].
  - rewrite bearer_subject_bearer. unfold token_subject. by rewrite Hdec.
Qed.

End Handlers.

(** ** The claims on concrete requests *)

Lemma token_roundtrip_witness :
  token_subject Sample.JWT_SECRET Sample.jwt_decode
    (create_token Sample.JWT_SECRET Sample.jwt_encode 1700000000 "a@x.com")
  = Ok (VStr "a@x.com").
Proof.
  apply (token_roundtrip Sample.JWT_SECRET Sample.jwt_encode Sample.jwt_decode).
  intros sub iat key. apply sample_decode_encode.
Defined.

Lemma sample_db0_unique : unique_emails Sample.db0.
Proof. intros e. unfold email_count. simpl. lia. Qed.

Lemma register_duplicate_email_witness :
  register Sample.bcrypt_raw Sample.JWT_SECRET Sample.jwt_encode
    (AuthRequest.mk "a@x.com" "pw2") Sample.salt 1700000001 (Some Sample.db1)
  = (Raise (HTTPException 400 "Email already registered"), Some Sample.db1) ∧
  ∃ d',
    run Sample.bcrypt_raw Sample.JWT_SECRET Sample.jwt_encode Sample.jwt_decode
      (Some Sample.db0)
      [Register (AuthRequest.mk "a@x.com" "pw1") Sample.salt 1700000000;
       Register (AuthRequest.mk "a@x.com" "pw2") Sample.salt 1700000001;
       Register (AuthRequest.mk "b@x.com" "pw3") Sample.salt 1700000002]
    = Some d' ∧ unique_emails d'.
Proof.
  pose proof (register_duplicate_email Sample.bcrypt_raw Sample.JWT_SECRET
                Sample.jwt_encode Sample.jwt_decode) as (Hdup & Hrun & _).
  split.
  - apply Hdup.
    exists (default (UserDoc.mk "" None None) (head (user Sample.db1))).
    split; [vm_compute; left | reflexivity].
  - apply Hrun, sample_db0_unique.
Defined.

Lemma login_invalid_credentials_witness :
  login Sample.bcrypt_raw Sample.JWT_SECRET Sample.jwt_encode
    (AuthRequest.mk "a@x.com" "wrong") 1700000003 (Some Sample.db1)
  = (Raise (HTTPException 401 "Invalid credentials"), Some Sample.db1) ∧
  login Sample.bcrypt_raw Sample.JWT_SECRET Sample.jwt_encode
    (AuthRequest.mk "b@x.com" "pw1") 1700000003 (Some Sample.db1)
  = (Raise (HTTPException 401 "Invalid credentials"), Some Sample.db1).
Proof.
  split; apply login_invalid_credentials.
  - right. eexists. split; vm_compute; reflexivity.
  - left. vm_compute user. intros u Hu.
    apply list_elem_of_singleton in Hu as ->. discriminate.
Defined.

(** C4.  The two failure causes of [login] can be told apart: with a
    password that the hasher refuses (one NUL byte, or 4097 characters),
    [login] for the registered [a@x.com] raises the hasher's error, which
    no handler catches, while for the unregistered [b@x.com] it answers
    401 "Invalid credentials". *)
Theorem login_hasher_error_reveals_user :
  login Sample.bcrypt_raw Sample.JWT_SECRET Sample.jwt_encode
    (AuthRequest.mk "a@x.com" (String Ascii.zero "")) 1700000003
    (Some Sample.db1)
  = (Raise PasswordValueError, Some Sample.db1) ∧
  login Sample.bcrypt_raw Sample.JWT_SECRET Sample.jwt_encode
    (AuthRequest.mk "b@x.com" (String Ascii.zero "")) 1700000003
    (Some Sample.db1)
  = (Raise (HTTPException 401 "Invalid credentials"), Some Sample.db1) ∧
  login Sample.bcrypt_raw Sample.JWT_SECRET Sample.jwt_encode
    (AuthRequest.mk "a@x.com" Sample.oversized) 1700000003 (Some Sample.db1)
  = (Raise PasswordSizeError, Some Sample.db1) ∧
  login Sample.bcrypt_raw Sample.JWT_SECRET Sample.jwt_encode
    (AuthRequest.mk "b@x.com" Sample.oversized) 1700000003 (Some Sample.db1)
  = (Raise (HTTPException 401 "Invalid credentials"), Some Sample.db1).
Proof. split_and!; vm_compute; reflexivity. Qed.



(** C6, as stated, fails: a validly signed token whose subject is the
    empty string decodes, and the stored [user_id] is "anonymous", not the
    token's subject. *)
Lemma track_event_empty_subject_not_recorded :
  token_subject Sample.JWT_SECRET Sample.jwt_decode Sample.empty_subject_token
  = Ok (VStr "") ∧
  track_event Sample.JWT_SECRET Sample.jwt_decode Sample.click
    (Some ("Bearer " ++ Sample.empty_subject_token)%string) (Some Sample.db0)
  = (Ok {["status" := "ok"]},
     Some (mkDatabase [] [Event.mk "anonymous" "click" ∅])) ∧
  "anonymous" ≠ "".
Proof. split_and!; [vm_compute; reflexivity.. | discriminate]. Qed.

Lemma track_event_user_id_witness :
  track_event Sample.JWT_SECRET Sample.jwt_decode Sample.click
    (Some ("Bearer " ++
           create_token Sample.JWT_SECRET Sample.jwt_encode 1700000000 "a@x.com")%string)
    (Some Sample.db0)
  = (Ok {["status" := "ok"]},
     Some (mkDatabase [] [Event.mk "a@x.com" "click" ∅])) ∧
  track_event Sample.JWT_SECRET Sample.jwt_decode Sample.click None
    (Some Sample.db0)
  = (Ok {["status" := "ok"]},
     Some (mkDatabase [] [Event.mk "anonymous" "click" ∅])).
Proof.
  pose proof (track_event_user_id Sample.JWT_SECRET Sample.jwt_decode
                Sample.click Sample.db0) as (Htok & Hnone & _).
  split; [|exact Hnone].
  apply (Htok _ "a@x.com"). vm_compute. reflexivity.
Defined.

Lemma track_event_empty_subject_witness :
  track_event Sample.JWT_SECRET Sample.jwt_decode Sample.click
    (Some ("Bearer " ++ Sample.no_subject_token)%string) (Some Sample.db0)
  = (Ok {["status" := "ok"]},
     Some (mkDatabase [] [Event.mk "anonymous" "click" ∅])) ∧
  track_event Sample.JWT_SECRET Sample.jwt_decode Sample.click
    (Some ("Bearer " ++ Sample.empty_subject_token)%string) (Some Sample.db0)
  = (Ok {["status" := "ok"]},
     Some (mkDatabase [] [Event.mk "anonymous" "click" ∅])).
Proof.
  split.
  - apply (track_event_empty_subject Sample.JWT_SECRET Sample.jwt_decode
             Sample.click Sample.no_subject_token Sample.db0
             {["iat" := VInt 1700000000]}).
    + vm_compute. reflexivity.
    + left. reflexivity.
  - apply (track_event_empty_subject Sample.JWT_SECRET Sample.jwt_decode
             Sample.click Sample.empty_subject_token Sample.db0
             {["sub" := VStr ""]}).
    + vm_compute. reflexivity.
    + right. reflexivity.
Defined.

(** ** The scenarios of the specification, run on the sample instances *)

Example scenario_summary :
  (analytics_summary None
     (run Sample.bcrypt_raw Sample.JWT_SECRET Sample.jwt_encode Sample.jwt_decode
        (Some Sample.db0) Sample.scenario_events)).1
  = Ok (Summary.mk 4 [("click", 3); ("view", 1)]).
Proof. vm_compute. reflexivity. Qed.

Example scenario_login :
  ∃ token,
    (login Sample.bcrypt_raw Sample.JWT_SECRET Sample.jwt_encode
       (AuthRequest.mk "a@x.com" "pw1") 1700000005 (Some Sample.db1)).1
    = Ok (AuthResponse.mk token "a@x.com" None).
Proof. eexists. vm_compute. reflexivity. Qed.

(** The default of line 96 hands the empty string to [verify_password]:
    a [user] document without [password_hash] makes [login] raise instead
    of answering 401. *)
Example login_missing_hash :
  login Sample.bcrypt_raw Sample.JWT_SECRET Sample.jwt_encode
    (AuthRequest.mk "c@x.com" "pw") 1700000006 (Some Sample.db_no_hash)
  = (Raise UnknownHashError, Some Sample.db_no_hash).
Proof. reflexivity. Qed.

(** * Further properties of the handlers *)

Section MoreUsers.
Implicit Types (d : Database) (e : string) (u : UserDoc.t).

Lemma find_one_user_elem d e u :
  find_one_user d e = Some u → u ∈ user d ∧ UserDoc.email u = e.
Proof.
  unfold find_one_user. intros [Hin Heq]%List.find_some. split.
  - by apply list_elem_of_In.
  - by apply String.eqb_eq.
Qed.

Lemma find_one_user_snoc us es u e :
  (∀ u', u' ∈ us → UserDoc.email u' ≠ e) →
  UserDoc.email u = e →
  find_one_user (mkDatabase (us ++ [u]) es) e = Some u.
Proof.
  unfold find_one_user. cbn [user]. intros Hfresh Hu.
  induction us as [|u0 us IH]; cbn [app List.find].
  - by rewrite Hu, String.eqb_refl.
  - destruct (String.eqb_spec (UserDoc.email u0) e) as [Heq|Hne].
    + destruct (Hfresh u0); [left | done].
    + apply IH. intros u' Hu'. apply Hfresh. by right.
Qed.

Lemma find_one_user_None_absent d e :
  find_one_user d e = None → ∀ u, u ∈ user d → UserDoc.email u ≠ e.
Proof.
  unfold find_one_user. intros Hnone u Hin%list_elem_of_In Heq.
  apply (List.find_none _ _ Hnone) in Hin.
  by rewrite Heq, String.eqb_refl in Hin.
Qed.

End MoreUsers.

Section MoreHandlers.
Variable bcrypt_raw : string → nat → string → string → string.
Variable JWT_SECRET : string.
Variable jwt_encode : gmap string value → string → string → string.
Variable jwt_decode : string → string → list string → result (gmap string value).

Implicit Types (d : Database) (ev : EventIn.t) (tok : string).

(** X1.  For an email that no [user] document carries and a password the
    hasher accepts, [register] succeeds: it appends one document with that
    email, no name and the hash (not the password), leaves the events as
    they were, and answers with a token issued for the email. *)
Theorem register_fresh_email d payload salt now h :
  (∀ u, u ∈ user d → UserDoc.email u ≠ AuthRequest.email payload) →
  hash_password bcrypt_raw salt (AuthRequest.password payload) = Ok h →
  register bcrypt_raw JWT_SECRET jwt_encode payload salt now (Some d)
  = (Ok (AuthResponse.mk
           (create_token JWT_SECRET jwt_encode now (AuthRequest.email payload))
           (AuthRequest.email payload) None),
     Some (mkDatabase
             (user d ++ [UserDoc.mk (AuthRequest.email payload) None (Some h)])
             (event d))).
Proof.
  intros Hfresh Hh. unfold register.
  by rewrite (find_one_user_absent _ _ Hfresh), Hh.
Qed.

(** X2.  [register] is all or nothing: when it raises, whatever the
    error, the store is the one it was given; when it answers, the email
    was not in the store before and exactly one [user] document, with the
    request's email, has been appended. *)
Theorem register_all_or_nothing d payload salt now :
  match register bcrypt_raw JWT_SECRET jwt_encode payload salt now (Some d) with
  | (Raise _, db') => db' = Some d
  | (Ok resp, db') =>
      (∀ u, u ∈ user d → UserDoc.email u ≠ AuthRequest.email payload) ∧
      AuthResponse.email resp = AuthRequest.email payload ∧
      ∃ h, db' = Some (mkDatabase
                         (user d ++ [UserDoc.mk (AuthRequest.email payload)
                                       None (Some h)])
                         (event d))
  end.
Proof.
  unfold register.
  destruct (find_one_user d _) eqn:Hfind; [done|].
  destruct (hash_password _ _ _) as [h|]; [|done].
  split_and!; [by apply find_one_user_None_absent | done | by exists h].
Qed.

(** X17.  [login] answers only for a stored user whose hash verifies the
    password: a success means that the first document with the email
    exists and [verify_password] returned true on its hash, and the answer
    carries a token for that email and the document's name. *)
Theorem login_success_sound d payload now resp db' :
  login bcrypt_raw JWT_SECRET jwt_encode payload now (Some d) = (Ok resp, db') →
  ∃ u,
    u ∈ user d ∧ UserDoc.email u = AuthRequest.email payload ∧
    verify_password bcrypt_raw (AuthRequest.password payload)
      (default "" (UserDoc.password_hash u)) = Ok true ∧
    resp = AuthResponse.mk
             (create_token JWT_SECRET jwt_encode now (AuthRequest.email payload))
             (AuthRequest.email payload) (UserDoc.name u).
Proof.
  unfold login. destruct (find_one_user d _) as [u|] eqn:Hfind; [|done].
  destruct (verify_password _ _ _) as [[]|] eqn:Hv; [|done..].
  intros [= <- _]. exists u.
  apply find_one_user_elem in Hfind as [Hin Heq]. done.
Qed.

(** X4.  What the handlers never touch: [login] and [analytics_summary]
    return the store handle they were given, [track_event] never changes
    the [user] collection and [register] never changes the [event]
    collection, whatever the request and its outcome. *)
Theorem handlers_leave_untouched payload salt now ev authorization db :
  (login bcrypt_raw JWT_SECRET jwt_encode payload now db).2 = db ∧
  (analytics_summary authorization db).2 = db ∧
  user <$> (track_event JWT_SECRET jwt_decode ev authorization db).2 = user <$> db ∧
  event <$> (register bcrypt_raw JWT_SECRET jwt_encode payload salt now db).2
  = event <$> db.
Proof.
  split_and!.
  - unfold login. destruct db as [d|]; [|done].
    destruct (find_one_user d _); [|done].
    by destruct (verify_password _ _ _) as [[]|].
  - by destruct db.
  - unfold track_event. destruct db as [d|]; [|done].
    by destruct (_ ≫= _).
  - unfold register. destruct db as [d|]; [|done].
    destruct (find_one_user d _); [done|].
    by destruct (hash_password _ _ _).
Qed.

(** X3.  Registering and then logging in with the same credentials
    succeeds: for a fresh email, a salt as passlib draws it and a password
    without NUL bytes and of at most 4096 bytes, [login] on the store that
    [register] left answers with a token for the email and no name, and
    leaves that store as it is; with another such password whose digest
    differs it answers 401. *)
Theorem register_then_login d payload salt now now' :
  (∀ ident rounds salt key,
     bcrypt_digest_ok (bcrypt_raw ident rounds salt key) = true) →
  bcrypt_salt_ok salt = true →
  has_nul (AuthRequest.password payload) = false →
  String.length (AuthRequest.password payload) ≤ 4096 →
  (∀ u, u ∈ user d → UserDoc.email u ≠ AuthRequest.email payload) →
  let db1 :=
    (register bcrypt_raw JWT_SECRET jwt_encode payload salt now (Some d)).2 in
  login bcrypt_raw JWT_SECRET jwt_encode payload now' db1
  = (Ok (AuthResponse.mk
           (create_token JWT_SECRET jwt_encode now' (AuthRequest.email payload))
           (AuthRequest.email payload) None),
     db1) ∧
  ∀ q,
    has_nul q = false →
    String.length q ≤ 4096 →
    bcrypt_raw "$2b$" 12 salt (string_take 72 q)
    ≠ bcrypt_raw "$2b$" 12 salt (string_take 72 (AuthRequest.password payload)) →
    login bcrypt_raw JWT_SECRET jwt_encode
      (AuthRequest.mk (AuthRequest.email payload) q) now' db1
    = (Raise (HTTPException 401 "Invalid credentials"), db1).
Proof.
  intros Hlen Hsalt Hp Hplen Hfresh db1.
  assert (db1 = Some (mkDatabase
            (user d ++ [UserDoc.mk (AuthRequest.email payload) None
               (Some ("$2b$12$" ++ salt ++ bcrypt_raw "$2b$" 12 salt
                        (string_take bcrypt_truncate_size
                           (AuthRequest.password payload)))%string)])
            (event d))) as ->.
  { unfold db1, register.
    by rewrite (find_one_user_absent _ _ Hfresh), hash_password_accepted. }
  split.
  - unfold login. rewrite find_one_user_snoc by done.
    cbn [UserDoc.password_hash UserDoc.name default from_option id].
    rewrite (verify_password_hashed bcrypt_raw Hlen) by done.
    by rewrite String.eqb_refl.
  - intros q Hq Hqlen Hne. unfold login.
    cbn [AuthRequest.email AuthRequest.password].
    rewrite find_one_user_snoc by done.
    cbn [UserDoc.password_hash default from_option id].
    rewrite (verify_password_hashed bcrypt_raw Hlen) by done.
    by rewrite (proj2 (String.eqb_neq _ _)).
Qed.

Lemma startswith_bearer a :
  startswith a "Bearer " = true → ∃ tok, a = ("Bearer " ++ tok)%string.
Proof.
  unfold startswith. intros H.
  do 7 (destruct a as [|? a]; [done|];
        cbn [String.prefix] in H;
        destruct (ascii_dec _ _) as [<-|]; [|done]).
  by exists a.
Qed.

Lemma bearer_subject_not_bearer a :
  startswith a "Bearer " = false →
  bearer_subject JWT_SECRET jwt_decode (Some a) = Ok VNone.
Proof. intros H. unfold bearer_subject. by rewrite H, andb_false_r. Qed.

(** X5.  An authorization value that does not start with "Bearer "
    (another scheme, another letter case, the empty string) counts as no
    token: the decoder is not consulted and the event is stored for
    "anonymous". *)
Theorem track_event_not_bearer ev a d :
  startswith a "Bearer " = false →
  track_event JWT_SECRET jwt_decode ev (Some a) (Some d)
  = (Ok {["status" := "ok"]},
     Some (with_event (stored_event "anonymous" ev) d)).
Proof.
  intros H. rewrite (track_event_subject _ _ _ _ _ VNone); [done|].
  by apply bearer_subject_not_bearer.
Qed.

(** The value of [email] is [None] or a string as soon as the decoder
    raises nothing but [JWTError] and yields string subjects. *)
Lemma bearer_subject_shape authorization :
  (∀ tok e, jwt_decode tok JWT_SECRET [JWT_ALG] = Raise e → e = JWTError) →
  (∀ tok payload v,
     jwt_decode tok JWT_SECRET [JWT_ALG] = Ok payload →
     payload !! "sub" = Some v → ∃ s, v = VStr s) →
  ∃ v, bearer_subject JWT_SECRET jwt_decode authorization = Ok v ∧
       (v = VNone ∨ ∃ s, v = VStr s).
Proof.
  intros Hraise Hsub. destruct authorization as [a|]; [|by exists VNone; auto].
  destruct (startswith a "Bearer ") eqn:Hb.
  - apply startswith_bearer in Hb as [tok ->].
    rewrite bearer_subject_bearer. unfold token_subject.
    destruct (jwt_decode tok _ _) as [payload|e] eqn:Hdec; cbn [mbind result_bind].
    + exists (dict_get payload "sub"). split; [done|]. unfold dict_get.
      destruct (payload !! "sub") as [v|] eqn:Hv; [|by left].
      right. by apply (Hsub tok payload).
    + rewrite (Hraise _ _ Hdec). exists VNone. auto.
  - exists VNone. split; [by apply bearer_subject_not_bearer | auto].
Qed.

(** X6.  With the store configured [track_event] never fails: provided
    the decoder raises nothing but [JWTError] and returns claims whose
    [sub], when present, is a string, every request is answered
    [{"status": "ok"}] and stores exactly one event with a non-empty
    [user_id], the request's type and its properties. *)
Theorem track_event_never_fails ev authorization d :
  (∀ tok e, jwt_decode tok JWT_SECRET [JWT_ALG] = Raise e → e = JWTError) →
  (∀ tok payload v,
     jwt_decode tok JWT_SECRET [JWT_ALG] = Ok payload →
     payload !! "sub" = Some v → ∃ s, v = VStr s) →
  ∃ user_id,
    user_id ≠ "" ∧
    track_event JWT_SECRET jwt_decode ev authorization (Some d)
    = (Ok {["status" := "ok"]},
       Some (mkDatabase (user d)
               (event d ++ [Event.mk user_id (EventIn.type ev)
                              (default ∅ (EventIn.properties ev))]))).
Proof.
  intros Hraise Hsub.
  destruct (bearer_subject_shape authorization Hraise Hsub)
    as (v & Hv & [->|[s ->]]);
    rewrite (track_event_subject _ _ _ _ _ _ Hv).
  - by exists "anonymous".
  - unfold py_or, truthy. destruct (String.eqb_spec s "") as [->|Hs].
    + by exists "anonymous".
    + by exists s.
Qed.

(** X8.  A token issued by [create_token] attributes later events to its
    email: whenever the token library decodes what it encoded, posting an
    event with "Bearer " followed by the token issued for a non-empty
    email stores the event with that email as [user_id]. *)
Theorem issued_token_attributes_event ev d now email :
  (∀ (sub : string) (iat : Z) (key : string),
     jwt_decode
       (jwt_encode (<["sub" := VStr sub]> (<["iat" := VInt iat]> ∅)) key JWT_ALG)
       key [JWT_ALG]
     = Ok (<["sub" := VStr sub]> (<["iat" := VInt iat]> ∅))) →
  email ≠ "" →
  track_event JWT_SECRET jwt_decode ev
    (Some ("Bearer " ++ create_token JWT_SECRET jwt_encode now email)%string)
    (Some d)
  = (Ok {["status" := "ok"]},
     Some (mkDatabase (user d)
             (event d ++ [Event.mk email (EventIn.type ev)
                            (default ∅ (EventIn.properties ev))]))).
Proof.
  intros Hrt Hne. rewrite (track_event_subject _ _ _ _ _ (VStr email)).
  - unfold py_or, truthy. by rewrite (proj2 (String.eqb_neq _ _)).
  - rewrite bearer_subject_bearer. unfold token_subject, create_token.
    rewrite Hrt. cbn [mbind result_bind]. unfold dict_get.
    by rewrite lookup_insert_eq.
Qed.

End MoreHandlers.

(** ** Sequences of requests *)

Lemma hash_password_identified bcrypt_raw salt password h :
  hash_password bcrypt_raw salt password = Ok h → bcrypt_identify h = true.
Proof.
  unfold hash_password, pwd_context_hash, validate_secret, bcrypt_checksum.
  destruct (_ <? utf8_chars _); [done|]. cbn [mbind result_bind].
  destruct (_ <? String.length _); [done|].
  destruct (has_nul password); [done|].
  cbn [mbind result_bind]. intros [= <-]. apply bcrypt_identify_render.
Qed.

Lemma bcrypt_from_string_error hash e :
  bcrypt_from_string hash = Raise e → e = MalformedHashError.
Proof.
  unfold bcrypt_from_string.
  destruct (List.find _ _) as [ident|]; [|by intros [= <-]].
  destruct (String.eqb ident "$2x$"); [by intros [= <-]|].
  destruct (string_drop _ _) as [|c1 [|c2 [|sep data]]]; try by intros [= <-].
  destruct (digit_of c1), (digit_of c2); try by intros [= <-].
  destruct (_ && _); [done | by intros [= <-]].
Qed.

Lemma verify_password_identified bcrypt_raw password hash :
  bcrypt_identify hash = true →
  verify_password bcrypt_raw password hash ≠ Raise UnknownHashError.
Proof.
  intros Hid. unfold verify_password, pwd_context_verify. rewrite Hid.
  cbn [negb]. unfold validate_secret.
  destruct (_ <? utf8_chars _); [done|]. cbn [mbind result_bind].
  destruct (bcrypt_from_string hash) as [h|e] eqn:Hparse;
    cbn [mbind result_bind].
  - unfold bcrypt_checksum.
    destruct (_ <? String.length _); [done|]. by destruct (has_nul password).
  - by rewrite (bcrypt_from_string_error _ _ Hparse).
Qed.

Section Sequences.
Variable bcrypt_raw : string → nat → string → string → string.
Variable JWT_SECRET : string.
Variable jwt_encode : gmap string value → string → string → string.
Variable jwt_decode : string → string → list string → result (gmap string value).

Local Abbreviation handle'' :=
  (handle bcrypt_raw JWT_SECRET jwt_encode jwt_decode).

Implicit Types (d : Database) (r : request) (rs : list request).

(** One request appends at most one document and keeps the rest. *)
Lemma handle_appends d r :
  ∃ us es,
    handle'' (Some d) r = Some (mkDatabase (user d ++ us) (event d ++ es)) ∧
    length us + length es ≤ 1 ∧
    Forall (λ u, ∃ h, UserDoc.password_hash u = Some h
                      ∧ bcrypt_identify h = true) us ∧
    Forall (λ e, Event.user_id e ≠ "") es.
Proof.
  assert (Some d = Some (mkDatabase (user d ++ []) (event d ++ []))) as Hsame.
  { rewrite !app_nil_r. by destruct d. }
  assert (∃ us es,
    Some d = Some (mkDatabase (user d ++ us) (event d ++ es)) ∧
    length us + length es ≤ 1 ∧
    Forall (λ u, ∃ h, UserDoc.password_hash u = Some h
                      ∧ bcrypt_identify h = true) us ∧
    Forall (λ e, Event.user_id e ≠ "") es) as Hnone.
  { exists [], []. split_and!; [done | simpl; lia | constructor..]. }
  destruct r as [payload salt now|payload now|ev authorization|authorization];
    cbn [handle].
  - unfold register. destruct (find_one_user d _); [done|].
    destruct (hash_password _ _ _) as [h|] eqn:Hh; [|done].
    eexists [_], []. cbn [snd create_document String.eqb Ascii.eqb Bool.eqb].
    rewrite app_nil_r. split_and!; [done | simpl; lia | | constructor].
    repeat constructor. exists h. split; [done|].
    by apply (hash_password_identified _ _ _ _ Hh).
  - unfold login. destruct (find_one_user d _); [|done].
    by destruct (verify_password _ _ _) as [[]|].
  - unfold track_event.
    destruct (bearer_subject _ _ _) as [v|]; cbn [mbind result_bind]; [|done].
    destruct (validate_str _) as [uid|] eqn:Hval; cbn [mbind result_bind];
      [|done].
    eexists [], [_]. cbn [snd create_document String.eqb Ascii.eqb Bool.eqb].
    rewrite app_nil_r. split_and!; [done | simpl; lia | constructor |].
    repeat constructor. cbn [Event.user_id].
    unfold py_or in Hval. destruct (truthy v) eqn:Hv.
    + destruct v; try done. injection Hval as <-. intros ->. done.
    + by injection Hval as <-.
  - done.
Qed.

(** X9.  The store only grows: over any sequence of requests every
    document that was in the [user] and [event] collections is still there,
    in its place, new documents come after it, and there are at most as
    many new documents as requests. *)
Theorem run_append_only d rs :
  ∃ us es,
    run bcrypt_raw JWT_SECRET jwt_encode jwt_decode (Some d) rs = Some (mkDatabase (user d ++ us) (event d ++ es)) ∧
    length us + length es ≤ length rs.
Proof.
  revert d. induction rs as [|r rs IH]; intros d.
  - exists [], []. rewrite !app_nil_r. split; [by destruct d | simpl; lia].
  - destruct (handle_appends d r) as (us & es & Hh & Hlen & _).
    unfold run. cbn [foldl]. rewrite Hh.
    destruct (IH (mkDatabase (user d ++ us) (event d ++ es)))
      as (us' & es' & Hrun & Hlen').
    exists (us ++ us'), (es ++ es'). unfold run in Hrun. rewrite Hrun.
    cbn [user event]. rewrite !app_assoc, !length_app. split; [done|].
    simpl. lia.
Qed.

(** X10.  No event without a user: if every stored event has a non-empty
    [user_id], this is still so after any sequence of requests, whatever
    tokens they carry and whatever the token library answers. *)
Theorem run_user_ids_nonempty d rs d' :
  user_ids_nonempty d →
  run bcrypt_raw JWT_SECRET jwt_encode jwt_decode (Some d) rs = Some d' →
  user_ids_nonempty d'.
Proof.
  revert d. induction rs as [|r rs IH]; intros d Hinv.
  - by intros [= <-].
  - destruct (handle_appends d r) as (us & es & Hh & _ & _ & Hes).
    unfold run. cbn [foldl]. rewrite Hh. apply IH.
    unfold user_ids_nonempty. cbn [event]. by apply Forall_app.
Qed.

(** X11.  Hashes written by [register] are always identified: if every
    [user] document carries a hash that the bcrypt context identifies (as
    in the store without users), this is still so after any sequence of
    requests, and [login] on the resulting store never raises
    [UnknownHashError]. *)
Theorem run_hashes_identified d rs d' :
  hashes_identified d →
  run bcrypt_raw JWT_SECRET jwt_encode jwt_decode (Some d) rs = Some d' →
  hashes_identified d' ∧
  ∀ payload now,
    (login bcrypt_raw JWT_SECRET jwt_encode payload now (Some d')).1
    ≠ Raise UnknownHashError.
Proof.
  intros Hinv Hrun.
  assert (hashes_identified d') as Hinv'.
  { revert d Hinv Hrun. induction rs as [|r rs IH]; intros d Hinv.
    - by intros [= <-].
    - destruct (handle_appends d r) as (us & es & Hh & _ & Hus & _).
      unfold run. cbn [foldl]. rewrite Hh. apply IH.
      unfold hashes_identified. cbn [user]. by apply Forall_app. }
  split; [done|]. intros payload now. unfold login.
  destruct (find_one_user d' _) as [u|] eqn:Hfind; [|done].
  apply find_one_user_elem in Hfind as [Hin _].
  unfold hashes_identified in Hinv'. rewrite Forall_forall in Hinv'.
  destruct (Hinv' u Hin) as (h & Hh & Hid). rewrite Hh.
  cbn [default from_option id].
  pose proof (verify_password_identified bcrypt_raw
                (AuthRequest.password payload) h Hid) as Hne.
  destruct (verify_password _ _ _) as [[]|e]; cbn [fst]; [done..|].
  intros [= ->]. done.
Qed.

End Sequences.

(** ** The summary of a collection with few types *)

Section FewTypes.
Implicit Types (evs : list Event.t) (t : string).

Lemma group_keys_elem t evs :
  t ∈ (group_by_type evs).*1 ↔ t ∈ Event.type <$> evs.
Proof.
  induction evs as [|e evs IH]; csimpl; [done|].
  rewrite bump_keys, elem_of_cons, <-IH.
  case_bool_decide as Hin.
  - split; [by right | intros [->|?]; done].
  - rewrite elem_of_app, list_elem_of_singleton.
    split; intros [?|?]; auto.
Qed.

Lemma group_length evs :
  length (group_by_type evs) = length (remove_dups (Event.type <$> evs)).
Proof.
  transitivity (length (group_by_type evs).*1); [by rewrite length_fmap|].
  apply Permutation_length, NoDup_Permutation.
  - apply group_NoDup.
  - apply NoDup_remove_dups.
  - intros t. by rewrite group_keys_elem, elem_of_remove_dups.
Qed.

(** With at most ten types the limit keeps every group. *)
Lemma few_types_summary evs :
  length (remove_dups (Event.type <$> evs)) ≤ 10 →
  dict_of_rows (aggregate_pipeline evs) = sort_count_desc (group_by_type evs).
Proof.
  intros Hfew. unfold aggregate_pipeline, limit.
  rewrite <-group_length in Hfew.
  rewrite take_ge
    by (by rewrite (Permutation_length (sort_count_desc_perm _))).
  apply dict_of_rows_NoDup. rewrite sort_count_desc_perm. apply group_NoDup.
Qed.

Lemma count_type_snoc t evs e :
  count_type t (evs ++ [e])
  = count_type t evs + (if decide (Event.type e = t) then 1 else 0).
Proof.
  unfold count_type. rewrite filter_app, length_app, filter_cons, filter_nil.
  by case_decide.
Qed.

(** X7.  With at most ten distinct event types nothing is cut off:
    [byType] lists every type that has an event, with its number of
    events, and [total] is the number of all events in the collection. *)
Theorem analytics_summary_few_types (d : Database) (authorization : option string) :
  length (remove_dups (Event.type <$> event d)) ≤ 10 →
  ∃ resp,
    analytics_summary authorization (Some d) = (Ok resp, Some d) ∧
    Summary.total resp = length (event d) ∧
    length (Summary.byType resp)
    = length (remove_dups (Event.type <$> event d)) ∧
    ∀ t, t ∈ Event.type <$> event d →
         (t, count_type t (event d)) ∈ Summary.byType resp.
Proof.
  intros Hfew. unfold analytics_summary.
  rewrite few_types_summary by done.
  eexists. split; [reflexivity|]. cbn [Summary.total Summary.byType].
  split_and!.
  - by rewrite sort_count_desc_perm, group_sum.
  - by rewrite (Permutation_length (sort_count_desc_perm _)), group_length.
  - intros t Ht%group_keys_elem. rewrite sort_count_desc_perm, <-group_get.
    by apply rows_get_present.
Qed.

(** X16.  Posting an event shows in the next summary: when [track_event]
    has answered and the collection then holds at most ten distinct types,
    [analytics_summary] on the resulting store reports one event more in
    [total] than the collection held before, and lists the posted type with
    one more than its previous number of events. *)
Theorem track_event_then_summary JWT_SECRET jwt_decode
    (ev : EventIn.t) (authorization authorization' : option string)
    (d d1 : Database) (r : gmap string string) :
  track_event JWT_SECRET jwt_decode ev authorization (Some d) = (Ok r, Some d1) →
  length (remove_dups (Event.type <$> event d1)) ≤ 10 →
  ∃ resp,
    analytics_summary authorization' (Some d1) = (Ok resp, Some d1) ∧
    Summary.total resp = S (length (event d)) ∧
    (EventIn.type ev, S (count_type (EventIn.type ev) (event d)))
    ∈ Summary.byType resp.
Proof.
  unfold track_event.
  destruct (_ ≫= _) as [data|] eqn:Hdata; [|done]. intros [= _ <-].
  assert (Event.type data = EventIn.type ev) as Htype.
  { destruct (bearer_subject _ _ _); cbn [mbind result_bind] in Hdata; [|done].
    destruct (validate_str _); cbn [mbind result_bind] in Hdata; [|done].
    by injection Hdata as <-. }
  cbn [create_document String.eqb Ascii.eqb Bool.eqb event].
  intros Hfew. unfold analytics_summary. cbn [event].
  rewrite few_types_summary by done.
  eexists. split; [reflexivity|]. cbn [Summary.total Summary.byType]. split.
  - rewrite sort_count_desc_perm, group_sum, length_app. simpl. lia.
  - rewrite sort_count_desc_perm.
    assert (S (count_type (EventIn.type ev) (event d))
            = rows_get (EventIn.type ev) (group_by_type (event d ++ [data])))
      as ->.
    { rewrite group_get, count_type_snoc, decide_True by done. lia. }
    apply rows_get_present, group_keys_elem.
    rewrite fmap_app, elem_of_app. right. rewrite <-Htype. left.
Qed.

End FewTypes.

(** ** The token dependency *)

Section Dependency.
Variable bcrypt_raw : string → nat → string → string → string.
Variable JWT_SECRET : string.
Variable jwt_encode : gmap string value → string → string → string.
Variable jwt_decode : string → string → list string → result (gmap string value).
Variable database_bool : Database → result bool.

Local Abbreviation get_current_user' :=
  (get_current_user JWT_SECRET jwt_decode database_bool).

(** X12.  [get_current_user] only ever returns a stored user named by
    the token: when it returns a document, a store is configured, the
    token is not empty, it decodes, its subject is a non-empty string, and
    the document is one of the [user] collection whose email is that
    subject. *)
Theorem get_current_user_sound token db u :
  get_current_user' token db = Ok u →
  ∃ d t,
    db = Some d ∧ token = Some t ∧ t ≠ "" ∧
    u ∈ user d ∧ UserDoc.email u ≠ "" ∧
    token_subject JWT_SECRET jwt_decode t = Ok (VStr (UserDoc.email u)).
Proof.
  unfold get_current_user. destruct token as [t|]; [|done].
  destruct (String.eqb_spec t "") as [|Ht]; [done|].
  destruct (token_subject _ _ t) as [email|e] eqn:Hsub; cbn [mbind result_bind];
    [|by destruct e].
  destruct (truthy email) eqn:Htruthy; cbn [negb]; [|done].
  destruct db as [d|]; cbn [mbind result_bind]; [|done].
  destruct (database_bool d) as [[]|e]; cbn [mbind result_bind];
    [| done | by destruct e].
  destruct email as [| | |s]; cbn [find_one_by_email]; try done.
  destruct (find_one_user d s) as [u'|] eqn:Hfind; [|done].
  intros [= ->]. apply find_one_user_elem in Hfind as [Hin Heq].
  exists d, t. split_and!; try done.
  - rewrite Heq. intros ->. discriminate Htruthy.
  - by rewrite Heq.
Qed.

(** X13.  Every refusal of [get_current_user] that comes from the token
    or the lookup is a 401: provided the decoder raises nothing but
    [JWTError] and the store object answers its truth test, the function
    either returns a document or raises [HTTPException] with status 401
    and one of the details "Missing token", "Invalid token" and "User not
    found"; without a token the detail is "Missing token", and with no
    store configured a token with a non-empty subject gets "User not
    found", not the 500 of the handlers. *)
Theorem get_current_user_refusals token db :
  (∀ tok e, jwt_decode tok JWT_SECRET [JWT_ALG] = Raise e → e = JWTError) →
  (∀ d, ∃ b, database_bool d = Ok b) →
  (is_Some token → token ≠ Some "" →
   get_current_user' token db ≠ Raise (HTTPException 401 "Missing token")) ∧
  (token = None ∨ token = Some "" →
   get_current_user' token db = Raise (HTTPException 401 "Missing token")) ∧
  (∀ t s, token = Some t → t ≠ "" → db = None →
          token_subject JWT_SECRET jwt_decode t = Ok (VStr s) → s ≠ "" →
          get_current_user' token db
          = Raise (HTTPException 401 "User not found")) ∧
  match get_current_user' token db with
  | Ok _ => True
  | Raise e =>
      e = HTTPException 401 "Missing token" ∨
      e = HTTPException 401 "Invalid token" ∨
      e = HTTPException 401 "User not found"
  end.
Proof.
  intros Hraise Hbool.
  assert (match get_current_user' token db with
          | Ok _ => True
          | Raise e =>
              ((token = None ∨ token = Some "") ∧
               e = HTTPException 401 "Missing token") ∨
              e = HTTPException 401 "Invalid token" ∨
              e = HTTPException 401 "User not found"
          end) as Hcases.
  { unfold get_current_user. destruct token as [t|]; [|by left; auto].
    destruct (String.eqb_spec t "") as [->|Ht]; [by left; auto|].
    unfold token_subject.
    destruct (jwt_decode t _ _) as [payload|e] eqn:Hdec; cbn [mbind result_bind].
    - destruct (truthy _); cbn [negb]; [|auto].
      destruct db as [d|]; cbn [mbind result_bind]; [|auto].
      destruct (Hbool d) as [b ->]. cbn [mbind result_bind].
      destruct b; [|auto]. destruct (find_one_by_email _ _); auto.
    - rewrite (Hraise _ _ Hdec). auto. }
  split_and!.
  - intros [t ->] Ht. unfold get_current_user.
    destruct (String.eqb_spec t "") as [->|Hne]; [done|].
    unfold token_subject.
    destruct (jwt_decode t _ _) as [payload|e] eqn:Hdec; cbn [mbind result_bind].
    + destruct (truthy _); cbn [negb]; [|done].
      destruct db as [d|]; cbn [mbind result_bind]; [|done].
      destruct (Hbool d) as [b ->]. cbn [mbind result_bind].
      destruct b; [|done]. by destruct (find_one_by_email _ _).
    + by rewrite (Hraise _ _ Hdec).
  - by intros [-> | ->].
  - intros t s -> Ht -> Hsub Hs. unfold get_current_user.
    rewrite (proj2 (String.eqb_neq _ _)) by done. rewrite Hsub.
    cbn [mbind result_bind truthy].
    by rewrite (proj2 (String.eqb_neq _ _)).
  - destruct (get_current_user' token db); [done|].
    destruct Hcases as [[_ ->]|[->| ->]]; auto.
Qed.

(** X14.  The token that [register] hands out opens [get_current_user]:
    whenever the token library decodes what it encoded and never issues an
    empty token, and the store object tests true, then after [register]
    succeeded for a non-empty email, [get_current_user] on the returned
    token and the resulting store returns the document just written. *)
Theorem register_then_get_current_user d payload salt now resp db1 :
  (∀ (sub : string) (iat : Z) (key : string),
     jwt_decode
       (jwt_encode (<["sub" := VStr sub]> (<["iat" := VInt iat]> ∅)) key JWT_ALG)
       key [JWT_ALG]
     = Ok (<["sub" := VStr sub]> (<["iat" := VInt iat]> ∅))) →
  (∀ claims key algorithm, jwt_encode claims key algorithm ≠ "") →
  (∀ d, database_bool d = Ok true) →
  AuthRequest.email payload ≠ "" →
  register bcrypt_raw JWT_SECRET jwt_encode payload salt now (Some d)
  = (Ok resp, db1) →
  ∃ h,
    hash_password bcrypt_raw salt (AuthRequest.password payload) = Ok h ∧
    get_current_user' (Some (AuthResponse.token resp)) db1
    = Ok (UserDoc.mk (AuthRequest.email payload) None (Some h)).
Proof.
  intros Hrt Hnonempty Hbool Hemail. unfold register.
  destruct (find_one_user d _) eqn:Hfind; [done|].
  destruct (hash_password _ _ _) as [h|]; [|done].
  intros [= <- <-]. exists h. split; [done|].
  cbn [AuthResponse.token]. unfold get_current_user.
  rewrite (proj2 (String.eqb_neq _ _)) by apply Hnonempty.
  unfold token_subject, create_token. rewrite Hrt.
  cbn [mbind result_bind]. unfold dict_get. rewrite lookup_insert_eq.
  cbn [default from_option id truthy].
  rewrite (proj2 (String.eqb_neq _ _)) by done. cbn [negb].
  rewrite Hbool. cbn [mbind result_bind find_one_by_email create_document
                      String.eqb Ascii.eqb Bool.eqb User.email User.name
                      User.password_hash].
  rewrite find_one_user_snoc; [done | | done].
  by apply find_one_user_None_absent.
Qed.

End Dependency.

(** ** The diagnostic endpoint *)

Section Diagnostic.
Variable getenv : string → option string.
Variable database_name_attr : Database → result string.
Variable list_collection_names : Database → result (list string).
Variable error_text : exn → string.

Local Abbreviation test_database' :=
  (test_database getenv database_name_attr list_collection_names error_text).

(** X15.  What [GET /test] reports, for every state of the store and
    whatever the store object raises: [database_url] and [database_name]
    only say whether the two environment variables are set (the values
    written under the [try] never reach the caller); [collections] holds at
    most ten names, the first ones of what the store lists, and is empty
    when listing fails; [connection_status] is "Connected" exactly when a
    store is configured and its name could be read; and [database] is never
    left at its initial text "❌ Not Available". *)
Theorem test_database_report (db : option Database) :
  let r := test_database' db in
  TestResponse.database_url r
  = Some (if env_set getenv "DATABASE_URL" then "✅ Set" else "❌ Not Set") ∧
  TestResponse.database_name r
  = Some (if env_set getenv "DATABASE_NAME" then "✅ Set" else "❌ Not Set") ∧
  length (TestResponse.collections r) ≤ 10 ∧
  (∀ d names, db = Some d → list_collection_names d = Ok names →
     TestResponse.collections r `prefix_of` names) ∧
  (∀ d e, db = Some d → list_collection_names d = Raise e →
     TestResponse.collections r = []) ∧
  (TestResponse.connection_status r = "Connected" ↔
   ∃ d n, db = Some d ∧ database_name_attr d = Ok n) ∧
  TestResponse.database r ≠ "❌ Not Available".
Proof.
  intros r. subst r. unfold test_database, probe_database.
  split_and!; [done | done | | | | |].
  - destruct db as [d|]; [|simpl; lia].
    destruct (database_name_attr d); [|simpl; lia].
    destruct (list_collection_names d); cbn; [|lia].
    rewrite length_take. lia.
  - intros d names -> Hnames. rewrite Hnames.
    destruct (database_name_attr d); cbn.
    + exists (drop 10 names). by rewrite take_drop.
    + apply prefix_nil.
  - intros d e -> Hnames. rewrite Hnames. by destruct (database_name_attr d).
  - split.
    + destruct db as [d|]; [|done].
      destruct (database_name_attr d) as [n|] eqn:Hn; [by exists d, n | done].
    + intros (d & n & -> & Hn). rewrite Hn.
      by destruct (list_collection_names d).
  - destruct db as [d|]; [|done].
    destruct (database_name_attr d); [by destruct (list_collection_names d)|].
    cbn. intros H. apply (f_equal (string_take 5)) in H. vm_compute in H.
    discriminate H.
Qed.

End Diagnostic.

(** ** The sample codec meets the decoder's contract *)

Section SampleContract.
Import Sample.

Lemma sample_decode_raises tok key algorithms e :
  jwt_decode tok key algorithms = Raise e → e = JWTError.
Proof.
  unfold jwt_decode. destruct (decode_claims _ _ _); [done | by intros [= <-]].
Qed.

Lemma parse_iat_no_sub f claims :
  parse_iat f ∅ = Some claims → claims !! "sub" = None.
Proof.
  destruct f as [|c f]; cbn [parse_iat]; [by intros [= <-]|].
  destruct (Ascii.eqb c "i"); [|done].
  destruct (NilEmpty.int_of_string f); cbn [mbind option_bind]; [|done].
  intros [= <-]. by rewrite lookup_insert_ne.
Qed.

Lemma parse_sub_string f claims claims' v :
  claims !! "sub" = None →
  parse_sub f claims = Some claims' →
  claims' !! "sub" = Some v → ∃ s, v = VStr s.
Proof.
  intros Hnone. destruct f as [|c f]; cbn [parse_sub].
  - intros [= <-]. by rewrite Hnone.
  - destruct (Ascii.eqb c "s"); [|done].
    intros [= <-]. rewrite lookup_insert_eq. intros [= <-]. by exists f.
Qed.

Lemma sample_decode_sub_string tok key algorithms payload v :
  jwt_decode tok key algorithms = Ok payload →
  payload !! "sub" = Some v → ∃ s, v = VStr s.
Proof.
  unfold jwt_decode. destruct (decode_claims _ _ _) as [claims|] eqn:Hd; [|done].
  intros [= <-]. revert Hd. unfold decode_claims.
  destruct (unframe tok) as [[alg r1]|]; cbn [mbind option_bind]; [|done].
  destruct (negb _); [done|].
  destruct (unframe r1) as [[sig body]|]; cbn [mbind option_bind]; [|done].
  destruct (negb _); [done|].
  destruct (unframe body) as [[subf r2]|]; cbn [mbind option_bind]; [|done].
  destruct (unframe r2) as [[iatf r3]|]; cbn [mbind option_bind]; [|done].
  destruct (negb _); [done|].
  destruct (parse_iat iatf ∅) as [c1|] eqn:Hi; cbn [mbind option_bind]; [|done].
  intros Hs. by apply (parse_sub_string subf c1 claims v (parse_iat_no_sub _ _ Hi)).
Qed.

Lemma sample_encode_nonempty claims key algorithm :
  jwt_encode claims key algorithm ≠ "".
Proof.
  unfold jwt_encode, frame. by destruct (String.length algorithm).
Qed.

End SampleContract.

(** ** The further properties on concrete requests *)

Lemma register_fresh_email_witness :
  ∃ h,
    register Sample.bcrypt_raw Sample.JWT_SECRET Sample.jwt_encode
      SampleStore.alice Sample.salt 1700000000 (Some Sample.db0)
    = (Ok (AuthResponse.mk SampleStore.alice_token "a@x.com" None),
       Some (mkDatabase [UserDoc.mk "a@x.com" None (Some h)] [])).
Proof.
  eexists.
  apply (register_fresh_email Sample.bcrypt_raw Sample.JWT_SECRET
           Sample.jwt_encode Sample.db0 SampleStore.alice Sample.salt).
  - intros u Hu. by apply elem_of_nil in Hu.
  - vm_compute. reflexivity.
Defined.

Lemma login_success_sound_witness :
  ∃ u,
    u ∈ user Sample.db1 ∧ UserDoc.email u = "a@x.com" ∧
    verify_password Sample.bcrypt_raw "pw1"
      (default "" (UserDoc.password_hash u)) = Ok true.
Proof.
  edestruct (login_success_sound Sample.bcrypt_raw Sample.JWT_SECRET
               Sample.jwt_encode Sample.db1 SampleStore.alice 1700000007)
    as (u & Hin & Hemail & Hv & _).
  - vm_compute. reflexivity.
  - exists u. split_and!; [exact Hin | exact Hemail | exact Hv].
Defined.

Lemma register_then_login_witness :
  let db1 :=
    (register Sample.bcrypt_raw Sample.JWT_SECRET Sample.jwt_encode
       SampleStore.alice Sample.salt 1700000000 (Some Sample.db0)).2 in
  login Sample.bcrypt_raw Sample.JWT_SECRET Sample.jwt_encode
    SampleStore.alice 1700000007 db1
  = (Ok (AuthResponse.mk
           (create_token Sample.JWT_SECRET Sample.jwt_encode 1700000007 "a@x.com")
           "a@x.com" None),
     db1) ∧
  login Sample.bcrypt_raw Sample.JWT_SECRET Sample.jwt_encode
    (AuthRequest.mk "a@x.com" "wrong") 1700000007 db1
  = (Raise (HTTPException 401 "Invalid credentials"), db1).
Proof.
  intros db1.
  assert (String.length (AuthRequest.password SampleStore.alice) ≤ 4096)
    as Hlen by (apply Nat.leb_le; vm_compute; reflexivity).
  assert (∀ u, u ∈ user Sample.db0 →
               UserDoc.email u ≠ AuthRequest.email SampleStore.alice)
    as Hfresh by (intros u Hu; by apply elem_of_nil in Hu).
  destruct (register_then_login Sample.bcrypt_raw Sample.JWT_SECRET
              Sample.jwt_encode Sample.db0 SampleStore.alice Sample.salt
              1700000000 1700000007 sample_bcrypt_raw_ok eq_refl eq_refl
              Hlen Hfresh) as [Hsame Hother].
  split; [exact Hsame|].
  apply (Hother "wrong"); [reflexivity | | ].
  - apply Nat.leb_le. vm_compute. reflexivity.
  - vm_compute. discriminate.
Defined.

Lemma track_event_not_bearer_witness :
  track_event Sample.JWT_SECRET Sample.jwt_decode Sample.click
    (Some ("bearer " ++ SampleStore.alice_token)%string) (Some Sample.db0)
  = (Ok {["status" := "ok"]},
     Some (with_event (stored_event "anonymous" Sample.click) Sample.db0)) ∧
  track_event Sample.JWT_SECRET Sample.jwt_decode Sample.click
    (Some "") (Some Sample.db0)
  = (Ok {["status" := "ok"]},
     Some (with_event (stored_event "anonymous" Sample.click) Sample.db0)).
Proof.
  split; apply track_event_not_bearer; reflexivity.
Defined.

Lemma track_event_never_fails_witness :
  ∃ user_id,
    user_id ≠ "" ∧
    track_event Sample.JWT_SECRET Sample.jwt_decode Sample.click
      (Some "Bearer ") (Some Sample.db0)
    = (Ok {["status" := "ok"]},
       Some (mkDatabase [] [Event.mk user_id "click" ∅])).
Proof.
  apply (track_event_never_fails Sample.JWT_SECRET Sample.jwt_decode
           Sample.click (Some "Bearer ") Sample.db0).
  - intros tok e. apply sample_decode_raises.
  - intros tok payload v. apply sample_decode_sub_string.
Defined.

Lemma issued_token_attributes_event_witness :
  track_event Sample.JWT_SECRET Sample.jwt_decode Sample.click
    (Some ("Bearer " ++ SampleStore.alice_token)%string) (Some Sample.db0)
  = (Ok {["status" := "ok"]},
     Some (mkDatabase [] [Event.mk "a@x.com" "click" ∅])).
Proof.
  apply (issued_token_attributes_event Sample.JWT_SECRET Sample.jwt_encode
           Sample.jwt_decode Sample.click Sample.db0 1700000000 "a@x.com").
  - intros sub iat key. apply sample_decode_encode.
  - discriminate.
Defined.

Lemma run_user_ids_nonempty_witness :
  user_ids_nonempty
    (mkDatabase []
       [Event.mk "anonymous" "click" ∅; Event.mk "a@x.com" "view" ∅]).
Proof.
  apply (run_user_ids_nonempty Sample.bcrypt_raw Sample.JWT_SECRET
           Sample.jwt_encode Sample.jwt_decode Sample.db0
           [TrackEvent (EventIn.mk "click" None) None;
            TrackEvent (EventIn.mk "view" None)
              (Some ("Bearer " ++ SampleStore.alice_token)%string)]).
  - constructor.
  - vm_compute. reflexivity.
Defined.

Lemma run_hashes_identified_witness :
  hashes_identified Sample.db1 ∧
  (login Sample.bcrypt_raw Sample.JWT_SECRET Sample.jwt_encode
     (AuthRequest.mk "a@x.com" "guess") 1700000008 (Some Sample.db1)).1
  ≠ Raise UnknownHashError.
Proof.
  destruct (run_hashes_identified Sample.bcrypt_raw Sample.JWT_SECRET
              Sample.jwt_encode Sample.jwt_decode Sample.db0
              [Register SampleStore.alice Sample.salt 1700000000] Sample.db1)
    as [Hinv Hlogin].
  - constructor.
  - vm_compute. reflexivity.
  - split; [exact Hinv | apply Hlogin].
Defined.

Lemma analytics_summary_few_types_witness :
  ∃ resp,
    analytics_summary None (Some SampleStore.clicks)
    = (Ok resp, Some SampleStore.clicks) ∧
    Summary.total resp = 4 ∧
    ("click", 3) ∈ Summary.byType resp.
Proof.
  destruct (analytics_summary_few_types SampleStore.clicks None)
    as (resp & Hresp & Htotal & _ & Hall).
  - vm_compute. lia.
  - exists resp. split_and!; [exact Hresp | exact Htotal |].
    apply (Hall "click"). vm_compute. left.
Defined.

Lemma get_current_user_sound_witness :
  ∃ u, u ∈ user Sample.db1 ∧ UserDoc.email u ≠ "".
Proof.
  edestruct (get_current_user_sound Sample.JWT_SECRET Sample.jwt_decode
               SampleStore.database_bool (Some SampleStore.alice_token)
               (Some Sample.db1))
    as (d & t & Hd & _ & _ & Hin & Hne & _).
  - vm_compute. reflexivity.
  - injection Hd as <-. eexists. split; [exact Hin | exact Hne].
Defined.

Lemma get_current_user_refusals_witness :
  get_current_user Sample.JWT_SECRET Sample.jwt_decode
    SampleStore.database_bool None (Some Sample.db1)
  = Raise (HTTPException 401 "Missing token") ∧
  get_current_user Sample.JWT_SECRET Sample.jwt_decode
    SampleStore.database_bool (Some SampleStore.alice_token) None
  = Raise (HTTPException 401 "User not found").
Proof.
  split.
  - apply (get_current_user_refusals Sample.JWT_SECRET Sample.jwt_decode
             SampleStore.database_bool None (Some Sample.db1)).
    + intros tok e. apply sample_decode_raises.
    + intros d. by exists true.
    + by left.
  - pose proof (get_current_user_refusals Sample.JWT_SECRET Sample.jwt_decode
                  SampleStore.database_bool (Some SampleStore.alice_token) None
                  (λ tok e, sample_decode_raises tok _ _ e)
                  (λ d, ex_intro _ true eq_refl)) as (_ & _ & H & _).
    apply (H SampleStore.alice_token "a@x.com");
      [reflexivity | discriminate | reflexivity
      | vm_compute; reflexivity | discriminate].
Defined.

Lemma register_then_get_current_user_witness :
  ∃ h,
    get_current_user Sample.JWT_SECRET Sample.jwt_decode
      SampleStore.database_bool (Some SampleStore.alice_token)
      (Some Sample.db1)
    = Ok (UserDoc.mk "a@x.com" None (Some h)).
Proof.
  edestruct (register_then_get_current_user Sample.bcrypt_raw
               Sample.JWT_SECRET Sample.jwt_encode Sample.jwt_decode
               SampleStore.database_bool Sample.db0 SampleStore.alice
               Sample.salt 1700000000)
    as (h & _ & Hget).
  - intros sub iat key. apply sample_decode_encode.
  - apply sample_encode_nonempty.
  - reflexivity.
  - discriminate.
  - vm_compute. reflexivity.
  - exists h. exact Hget.
Defined.

Lemma track_event_then_summary_witness :
  ∃ resp,
    analytics_summary None
      (Some (with_event (stored_event "anonymous" Sample.click) SampleStore.clicks))
    = (Ok resp,
       Some (with_event (stored_event "anonymous" Sample.click) SampleStore.clicks)) ∧
    Summary.total resp = 5 ∧ ("click", 4) ∈ Summary.byType resp.
Proof.
  apply (track_event_then_summary Sample.JWT_SECRET Sample.jwt_decode
           Sample.click None None SampleStore.clicks _ {["status" := "ok"]}).
  - reflexivity.
  - vm_compute. lia.
Defined.
